(** * Chatbot V2 (chatbot.py): streaming client and conversation store

    A shallow embedding of the pure and stateful core of [chatbot.py]:
    the content extractor, the stream decoder, the three transport
    operations, the per-model history dictionary and the send / stream
    controller, followed by the properties proved about them. *)

From Stdlib Require Import ZArith NArith List Bool Lia Ascii String.
From Stdlib Require Import SpecFloat.
From stdpp Require Import base option list strings gmap.

Set Warnings "-register-all".
Open Scope list_scope.

(** ** Python values *)

(** A Python [str] is a sequence of Unicode code points. *)
Abbreviation pystr := (list N).

(** An ASCII literal of the source as a [str]. *)
Definition py (s : string) : pystr :=
  map (fun a => N_of_ascii a) (list_ascii_of_string s).

Arguments py : simpl never.

(** [bytes] objects, as produced by [iter_lines(decode_unicode=False)]
    and by reading a file in binary mode. *)
Abbreviation pybytes := (list Byte.byte).

(** Values produced by [json.loads]: [None], [bool], [int], [float],
    [str], [list] and [dict] (insertion ordered, keys are [str]). *)
Inductive json : Type :=
| JNull
| JBool (b : bool)
| JInt (z : Z)
| JFloat (f : spec_float)
| JStr (s : pystr)
| JArr (items : list json)
| JObj (fields : list (pystr * json)).

(** Exceptions the modelled code can meet. *)
Inductive exn : Type :=
| KeyError
| AttributeError
| TypeError
| JSONDecodeError
| ValueError
| RecursionError
| HTTPError (status : Z)
| ConnectionError
| OSError.

Inductive result (A : Type) : Type :=
| Ok (a : A)
| Raise (e : exn).
Arguments Ok {A} a.
Arguments Raise {A} e.

#[global] Instance result_ret : MRet result := fun A a => Ok a.

#[global] Instance result_bind : MBind result := fun A B k m =>
  match m with
  | Ok a => k a
  | Raise e => Raise e
  end.

(** [bool(v)] on a decoded JSON value. *)
Definition truthy (v : json) : bool :=
  match v with
  | JNull => false
  | JBool b => b
  | JInt z => negb (Z.eqb z 0)
  | JFloat (S754_zero _) => false
  | JFloat _ => true
  | JStr s => match s with [] => false | _ => true end
  | JArr l => match l with [] => false | _ => true end
  | JObj l => match l with [] => false | _ => true end
  end.

Definition isinstance_dict (v : json) : bool :=
  match v with JObj _ => true | _ => false end.

Definition isinstance_str (v : json) : bool :=
  match v with JStr _ => true | _ => false end.

Definition isinstance_list (v : json) : bool :=
  match v with JArr _ => true | _ => false end.

Definition pystr_eqb (a b : pystr) : bool := bool_decide (a = b).

(** Lookup in a [dict]: the binding of the key, if any. *)
Fixpoint dict_lookup (fields : list (pystr * json)) (k : pystr) : option json :=
  match fields with
  | [] => None
  | (k', v) :: rest => if pystr_eqb k' k then Some v else dict_lookup rest k
  end.

(** [d.get(k)]: [None] when the key is absent; only a [dict] has the
    method. *)
Definition py_get (d : json) (k : pystr) : result json :=
  match d with
  | JObj fields => Ok (default JNull (dict_lookup fields k))
  | _ => Raise AttributeError
  end.

(** [s.startswith(p)] and the substring test [p in s]. *)
Fixpoint startswith (p s : pystr) : bool :=
  match p, s with
  | [], _ => true
  | a :: p', b :: s' => N.eqb a b && startswith p' s'
  | _ :: _, [] => false
  end.

Fixpoint substring (p s : pystr) : bool :=
  startswith p s ||
  match s with
  | [] => false
  | _ :: s' => substring p s'
  end.

(** [k in d] for a [str] key [k]. *)
Definition py_contains (d : json) (k : pystr) : result bool :=
  match d with
  | JObj fields => Ok (bool_decide (is_Some (dict_lookup fields k)))
  | JArr items => Ok (existsb (fun v => match v with
                                         | JStr s => pystr_eqb s k
                                         | _ => false
                                         end) items)
  | JStr s => Ok (substring k s)
  | _ => Raise TypeError
  end.

(** [d[k]] for a [str] key [k]. *)
Definition py_getitem (d : json) (k : pystr) : result json :=
  match d with
  | JObj fields =>
      match dict_lookup fields k with
      | Some v => Ok v
      | None => Raise KeyError
      end
  | _ => Raise TypeError
  end.

(** ** Utilities *)

(** ["".join(parts)] *)
Definition join (parts : list pystr) : pystr := concat parts.

(** The idiom ["k" in d and isinstance(d["k"], str)] guarding a use of
    [d["k"]]: the string stored under [k], when there is one. *)
Definition str_item (d : json) (k : pystr) : result (option pystr) :=
  b ← py_contains d k;
  if (b : bool) then
    v ← py_getitem d k;
    mret (match v with JStr s => Some s | _ => None end)
  else mret None.

(** [for k in keys: v = obj.get(k); if isinstance(v, str): return v] *)
Fixpoint first_str_get (obj : json) (keys : list pystr) : result (option pystr) :=
  match keys with
  | [] => mret None
  | k :: keys' =>
      v ← py_get obj k;
      match v with
      | JStr s => mret (Some s)
      | _ => first_str_get obj keys'
      end
  end.

(** [for k in keys: if k in msg and isinstance(msg[k], str): return msg[k]] *)
Fixpoint first_str_item (msg : json) (keys : list pystr) : result (option pystr) :=
  match keys with
  | [] => mret None
  | k :: keys' =>
      r ← str_item msg k;
      match r with
      | Some s => mret (Some s)
      | None => first_str_item msg keys'
      end
  end.

(** [[p.get("text") or p.get("content") for p in content if isinstance(p, dict)]] *)
Fixpoint part_values (content : list json) : result (list json) :=
  match content with
  | [] => mret []
  | p :: content' =>
      if isinstance_dict p then
        t ← py_get p (py "text");
        v ← (if truthy t then mret t else py_get p (py "content"));
        rest ← part_values content';
        mret (v :: rest)
      else part_values content'
  end.

(** [[p for p in parts if isinstance(p, str)]] *)
Fixpoint only_str (parts : list json) : list pystr :=
  match parts with
  | [] => []
  | JStr s :: parts' => s :: only_str parts'
  | _ :: parts' => only_str parts'
  end.

(** The body of [for ch in choices], with [texts] threaded through. *)
Fixpoint choices_texts (choices : list json) (texts : list pystr)
  : result (list pystr) :=
  match choices with
  | [] => mret texts
  | ch :: choices' =>
      if isinstance_dict ch then
        t ← str_item ch (py "text");
        match t with
        | Some s => choices_texts choices' (texts ++ [s])
        | None =>
            cmsg ← py_get ch (py "message");
            m ← (if isinstance_dict cmsg then str_item cmsg (py "content")
                 else mret None);
            match m with
            | Some s => choices_texts choices' (texts ++ [s])
            | None =>
                cdelta ← py_get ch (py "delta");
                d ← (if isinstance_dict cdelta
                     then str_item cdelta (py "content")
                     else mret None);
                match d with
                | Some s => choices_texts choices' (texts ++ [s])
                | None => choices_texts choices' texts
                end
            end
        end
      else choices_texts choices' texts
  end.

Definition FIELD_KEYS : list pystr :=
  [py "response"; py "text"; py "generated_text"; py "output_text"; py "content"].

Definition MSG_KEYS : list pystr := [py "content"; py "text"].

(** The [choices] block of [extract_text_from_obj]. *)
Definition extract_choices (obj : json) : result (option pystr) :=
  choices ← py_get obj (py "choices");
  match choices with
  | JArr chs =>
      texts ← choices_texts chs [];
      match texts with
      | [] => mret None
      | _ => mret (Some (join texts))
      end
  | _ => mret None
  end.

(** The [delta] block, falling through to [choices]. *)
Definition extract_delta (obj : json) : result (option pystr) :=
  delta ← py_get obj (py "delta");
  if isinstance_dict delta then
    c ← str_item delta (py "content");
    match c with
    | Some s => mret (Some s)
    | None =>
        t ← str_item delta (py "text");
        match t with
        | Some s => mret (Some s)
        | None => extract_choices obj
        end
    end
  else extract_choices obj.

(** The [message] / [msg] block, falling through to [delta]. *)
Definition extract_message (obj : json) : result (option pystr) :=
  message ← py_get obj (py "message");
  msg ← (if truthy message then mret message else py_get obj (py "msg"));
  if isinstance_dict msg then
    r ← first_str_item msg MSG_KEYS;
    match r with
    | Some s => mret (Some s)
    | None =>
        b ← py_contains msg (py "content");
        if (b : bool) then
          content ← py_getitem msg (py "content");
          match content with
          | JArr ps =>
              parts ← part_values ps;
              match only_str parts with
              | [] => extract_delta obj
              | strs => mret (Some (join strs))
              end
          | _ => extract_delta obj
          end
        else extract_delta obj
    end
  else extract_delta obj.

(** [extract_text_from_obj(obj)]; [None] is Python's [None]. *)
Definition extract_text_from_obj (obj : json) : result (option pystr) :=
  match obj with
  | JNull => mret None
  | JStr s => mret (Some s)
  | JObj _ =>
      r ← first_str_get obj FIELD_KEYS;
      match r with
      | Some s => mret (Some s)
      | None => extract_message obj
      end
  | _ => mret None
  end.

(** ** The documented resolution order (ContentExtractor, section 4.1)

    A second description of the extractor, written from the words of the
    specification as an ordered chain of matchers; each returns the
    matched text or [None] for "try next".  It is compared with
    [extract_text_from_obj] below. *)
Module Spec.

(** The value stored under [k] in an object; nothing elsewhere. *)
Definition field (v : json) (k : pystr) : option json :=
  match v with
  | JObj fields => dict_lookup fields k
  | _ => None
  end.

(** The string stored under [k], when the field holds a string. *)
Definition str_field (v : json) (k : pystr) : option pystr :=
  match field v k with
  | Some (JStr s) => Some s
  | _ => None
  end.

(** First string-valued field among [keys], in that order. *)
Fixpoint first_str_field (v : json) (keys : list pystr) : option pystr :=
  match keys with
  | [] => None
  | k :: keys' =>
      match str_field v k with
      | Some s => Some s
      | None => first_str_field v keys'
      end
  end.

(** Rule 1: the value itself is a string. *)
Definition match_string (v : json) : option pystr :=
  match v with JStr s => Some s | _ => None end.

(** Rule 2: string-valued fields in fixed priority order. *)
Definition match_field (v : json) : option pystr :=
  first_str_field v
    [py "response"; py "text"; py "generated_text"; py "output_text";
     py "content"].

(** The embedded [message] (or [msg]) value: [message] when it is
    present and not empty, [msg] otherwise. *)
Definition message_or_msg (v : json) : option json :=
  match field v (py "message") with
  | Some m => if truthy m then Some m else field v (py "msg")
  | None => field v (py "msg")
  end.

(** The [text] or [content] string of one part: [text] when it is
    present and not empty, [content] otherwise; nothing when the part
    is not an object or the chosen field is not a string. *)
Definition part_text (p : json) : option pystr :=
  match p with
  | JObj _ =>
      match field p (py "text") with
      | Some t =>
          if truthy t then match_string t
          else str_field p (py "content")
      | None => str_field p (py "content")
      end
  | _ => None
  end.

(** Rule 3: the embedded message object. *)
Definition match_message (v : json) : option pystr :=
  match message_or_msg v with
  | Some (JObj m) =>
      match first_str_field (JObj m) [py "content"; py "text"] with
      | Some s => Some s
      | None =>
          match field (JObj m) (py "content") with
          | Some (JArr parts) =>
              match omap part_text parts with
              | [] => None
              | strs => Some (concat strs)
              end
          | _ => None
          end
      end
  | _ => None
  end.

(** Rule 4: the embedded [delta] object. *)
Definition match_delta (v : json) : option pystr :=
  match field v (py "delta") with
  | Some (JObj d) => first_str_field (JObj d) [py "content"; py "text"]
  | _ => None
  end.

(** The text of one entry of [choices]: a direct [text], else a nested
    [message.content], else a nested [delta.content]. *)
Definition choice_text (ch : json) : option pystr :=
  match str_field ch (py "text") with
  | Some s => Some s
  | None =>
      match mbind (M := option) (fun m => str_field m (py "content"))
                  (field ch (py "message")) with
      | Some s => Some s
      | None =>
          mbind (M := option) (fun d => str_field d (py "content"))
                (field ch (py "delta"))
      end
  end.

(** Rule 5: the [choices] list. *)
Definition match_choices (v : json) : option pystr :=
  match field v (py "choices") with
  | Some (JArr chs) =>
      match omap choice_text chs with
      | [] => None
      | texts => Some (concat texts)
      end
  | _ => None
  end.

(** First match wins. *)
Fixpoint first_match (ms : list (option pystr)) : option pystr :=
  match ms with
  | [] => None
  | Some s :: _ => Some s
  | None :: ms' => first_match ms'
  end.

Definition extract (v : json) : option pystr :=
  first_match
    [match_string v; match_field v; match_message v; match_delta v;
     match_choices v].

(** A value matching none of the five documented shapes. *)
Definition matches_no_shape (v : json) : Prop :=
  match_string v = None /\ match_field v = None /\
  match_message v = None /\ match_delta v = None /\
  match_choices v = None.

End Spec.

(** A message of the request body. *)
Record message : Type := {
  role : pystr;
  content : pystr;
  images : option (list pystr)
}.

(** What [iter_lines] hands over: a line, or the exception raised when
    the connection breaks. *)
Inductive wire_item : Type :=
| Line (raw : pybytes)
| Broken (e : exn).

(** A streamed reply: status and body. *)
Record stream_reply : Type := {
  stream_status : Z;
  stream_lines : list wire_item
}.

(** ** The host: Python runtime, libraries and machine

    Library functions and facts of the machine the program runs on.
    They are not code of this repository and are taken as given. *)
Class Host : Type := {
  (** [raw.decode("utf-8", errors="replace")] *)
  decode_utf8 : pybytes -> pystr;
  (** [json.loads(text)]: the decoded value, or the exception raised,
      which is [JSONDecodeError] on a malformed text and can be another
      one on a text the decoder gives up on ([ValueError] on an integer
      of more digits than the interpreter converts, [RecursionError] on
      brackets nested too deep) *)
  json_loads : pystr -> result json;
  (** [str(x)] on a value that is not a [str] *)
  py_repr : json -> pystr;
  (** [str(exc)] *)
  exn_str : exn -> pystr;
  (** [hashlib.sha256(data).hexdigest()] *)
  sha256_hexdigest : pybytes -> pystr;
  (** [base64.b64encode(data).decode("utf-8")] *)
  b64encode : pybytes -> pystr;
  (** [open(path, "rb").read()]; [None] when the file cannot be read *)
  read_file : pystr -> option pybytes;
  (** whether Pillow was imported *)
  PIL_AVAILABLE : bool;
  (** whether [Image.open(path).convert("RGBA")] succeeds *)
  image_opens : pystr -> bool;
  (** what [session.post(base_url + "/api/chat", json={model, messages},
      stream=True)] returns *)
  post_chat : pystr -> list message -> result stream_reply
}.

(** Arguments of [ensure_str]: [bytes], or any other object. *)
Inductive pyval : Type :=
| VBytes (b : pybytes)
| VObj (v : json).

Abbreviation VStr s := (VObj (JStr s)).

(** [c.isspace()]: the code points that [str.strip()] removes. *)
Definition isspace (c : N) : bool :=
  ((9 <=? c) && (c <=? 13) || (28 <=? c) && (c <=? 32) || (c =? 133)
   || (c =? 160) || (c =? 5760) || (8192 <=? c) && (c <=? 8202)
   || (c =? 8232) || (c =? 8233) || (c =? 8239) || (c =? 8287)
   || (c =? 12288))%N.

Fixpoint lstrip (s : pystr) : pystr :=
  match s with
  | [] => []
  | c :: s' => if isspace c then lstrip s' else s
  end.

Definition rstrip (s : pystr) : pystr := rev (lstrip (rev s)).

(** [s.strip()] *)
Definition strip (s : pystr) : pystr := rstrip (lstrip s).

(** Truth value of a [str]. *)
Definition nonempty (s : pystr) : bool :=
  match s with [] => false | _ => true end.

(** Truth value of an attribute holding [None] or a [str]. *)
Definition is_set (o : option pystr) : bool :=
  match o with Some s => nonempty s | None => false end.

(** The line feed of the source literals. *)
Definition NL : pystr := [10%N].

Section WithHost.
Context `{Host}.

Definition ensure_str (x : pyval) : pystr :=
  match x with
  | VBytes b => decode_utf8 b
  | VObj (JStr s) => s
  | VObj v => py_repr v
  end.

(** ** Ollama client *)

(** [r.raise_for_status()] *)
Definition raise_for_status (status_code : Z) : result unit :=
  if ((400 <=? status_code) && (status_code <? 600))%Z
  then Raise (HTTPError status_code)
  else Ok tt.

(** A run of a generator: the values yielded, then normal exhaustion
    ([None]) or the exception that ended it. *)
Definition generator : Type := list pystr * option exn.

(** The [for raw in r.iter_lines(...)] loop of [chat_stream]. *)
Fixpoint chat_stream_loop (lines : list wire_item) : generator :=
  match lines with
  | [] => ([], None)
  | Broken e :: _ => ([], Some e)
  | Line raw :: lines' =>
      match raw with
      | [] => chat_stream_loop lines'
      | _ =>
          let line := ensure_str (VBytes raw) in
          let yielded :=
            match json_loads line with
            | Ok obj =>
                extracted ← extract_text_from_obj obj;
                match extracted with
                | Some text => mret (ensure_str (VStr text))
                | None => mret line
                end
            | Raise JSONDecodeError => mret line
            | Raise exc => Raise exc
            end in
          match yielded with
          | Ok fragment =>
              let (rest, e) := chat_stream_loop lines' in
              (fragment :: rest, e)
          | Raise e => ([], Some e)
          end
      end
  end.

(** [chat_stream(model, messages)], given what the POST returned. *)
Definition chat_stream (posted : result stream_reply) : generator :=
  match posted with
  | Raise e => ([], Some e)
  | Ok r =>
      match raise_for_status (stream_status r) with
      | Raise e => ([], Some e)
      | Ok _ => chat_stream_loop (stream_lines r)
      end
  end.

(** A reply with a body read at once. *)
Record reply : Type := {
  status_code : Z;
  body : pystr
}.

(** [r.json()] *)
Definition reply_json (r : reply) : result json := json_loads (body r).

(** [list_models()], given what the GET returned. *)
Definition list_models (got : result reply) : result json :=
  r ← got;
  _ ← raise_for_status (status_code r);
  data ← reply_json r;
  tagged ← (if isinstance_dict data then py_contains data (py "tags")
            else mret false);
  if (tagged : bool) then py_getitem data (py "tags")
  else if isinstance_list data then mret data
  else mret data.

(** [m if isinstance(m, str) else (m.get("name") if isinstance(m, dict)
    else str(m))] *)
Definition model_name (m : json) : result json :=
  if isinstance_str m then mret m
  else if isinstance_dict m then py_get m (py "name")
  else mret (JStr (ensure_str (VObj m))).

Fixpoint model_names_of (ms : list json) : result (list json) :=
  match ms with
  | [] => mret []
  | m :: ms' =>
      n ← model_name m;
      rest ← model_names_of ms';
      mret (n :: rest)
  end.

(** [for v in models.values(): if isinstance(v, list): ...; break] *)
Fixpoint first_list_value (fields : list (pystr * json))
  : result (list json) :=
  match fields with
  | [] => mret []
  | (_, JArr v) :: _ => model_names_of v
  | _ :: fields' => first_list_value fields'
  end.

(** The normalisation done by the worker of [refresh_models]. *)
Definition normalize_models (models : json) : result (list json) :=
  match models with
  | JObj fields => first_list_value fields
  | JArr ms => model_names_of ms
  | _ => mret [JStr (ensure_str (VObj models))]
  end.

(** [update_list]: the new content of the list box. *)
Definition update_list (model_names : list json) : list pystr :=
  map (fun m => ensure_str (VObj m)) model_names.

(** The worker of [refresh_models]: the new list box content, or the
    exception shown in the error dialog (the list box is then left as
    it is). *)
Definition refresh_models (got : result reply) : result (list pystr) :=
  models ← list_models got;
  model_names ← normalize_models models;
  mret (update_list model_names).

(** HTTP requests of [upload_blob]. *)
Inductive method : Type := PUT | POST.

Record request : Type := {
  req_method : method;
  req_url : pystr;
  req_data : pybytes;
  req_content_type : pystr
}.

(** [status in (200, 201)] *)
Definition accepted (status : Z) : bool :=
  (status =? 200)%Z || (status =? 201)%Z.

(** [upload_blob(file_path)] against a server with state [S]: the
    result, the requests sent in order, and the server afterwards. *)
Definition upload_blob {S : Type}
    (send : request -> S -> result Z * S)
    (base_url file_path : pystr) (srv : S)
  : result pystr * list request * S :=
  match read_file file_path with
  | None => (Raise OSError, [], srv)
  | Some data =>
      let sha := sha256_hexdigest data in
      let digest := py "sha256:" ++ sha in
      let url := base_url ++ py "/api/blobs/" ++ digest in
      let ctype := py "application/octet-stream" in
      let put := {| req_method := PUT; req_url := url; req_data := data;
                    req_content_type := ctype |} in
      match send put srv with
      | (Raise e, srv1) => (Raise e, [put], srv1)
      | (Ok status, srv1) =>
          if negb (accepted status) then
            let post := {| req_method := POST; req_url := url;
                           req_data := data;
                           req_content_type := ctype |} in
            match send post srv1 with
            | (Raise e, srv2) => (Raise e, [put; post], srv2)
            | (Ok status2, srv2) =>
                (_ ← raise_for_status status2; mret digest,
                 [put; post], srv2)
            end
          else
            (_ ← raise_for_status status; mret digest, [put], srv1)
      end
  end.

End WithHost.

(** ** The chat application *)

(** One position of the history [ScrolledText]: a character or an
    embedded image. *)
Inductive witem : Type :=
| Ch (c : N)
| Img.

(** The widget content, without the final newline Tk always keeps:
    the positions from ["1.0"] up to ["end-1c"]. *)
Abbreviation textbox := (list witem).

(** [get("1.0", "end-1c")]: the characters, images left out. *)
Fixpoint textbox_get (w : textbox) : pystr :=
  match w with
  | [] => []
  | Ch c :: w' => c :: textbox_get w'
  | Img :: w' => textbox_get w'
  end.

(** [insert("end", text)] *)
Definition textbox_insert_end (w : textbox) (text : pystr) : textbox :=
  w ++ map Ch text.

(** [index("end-1c")], as an offset from ["1.0"]. *)
Definition textbox_index_end (w : textbox) : nat := length w.

(** [delete(index, "end")]: the positions before [index] stay, except
    that, when [index] is the start of a line other than the first, Tk
    deletes the line feed before [index] too. *)
Definition textbox_delete_from (w : textbox) (index : nat) : textbox :=
  match index with
  | 0 => []
  | S i =>
      match w !! i with
      | Some (Ch c) => if N.eqb c 10 then take i w else take index w
      | _ => take index w
      end
  end.

(** [s.rfind(sub)]; [None] stands for [-1]. *)
Fixpoint rfind_from (sub s : pystr) (pos : nat) : option nat :=
  match s with
  | [] => if startswith sub [] then Some pos else None
  | _ :: s' =>
      match rfind_from sub s' (S pos) with
      | Some i => Some i
      | None => if startswith sub s then Some pos else None
      end
  end.

Definition rfind (s sub : pystr) : option nat := rfind_from sub s 0.

(** Entries of [histories]: the [dict]s with role [user], [assistant]
    and [image]. *)
Inductive entry : Type :=
| EUser (text : pystr)
| EAssistant (text : pystr)
| EImage (path : pystr) (caption : option pystr).

#[global] Instance entry_eq_dec : EqDecision entry.
Proof. solve_decision. Defined.

(** What the handlers do to the outside: dialogs and threads. *)
Inductive effect : Type :=
| ShowInfo (title text : pystr)
| ShowWarning (title text : pystr)
| ShowError (title text : pystr)
| StartStream (model : pystr) (messages : list message).

(** The attributes of [ChatApp] and the widgets it reads back. *)
Record ChatApp : Type := {
  current_model : option pystr;
  attached_image_path : option pystr;
  last_assistant_index : option nat;
  model_running : bool;
  histories : gmap pystr (list entry);
  history : textbox;
  input_box : pystr;
  model_listbox : list pystr;
  model_label : pystr
}.

Definition CLEAR_TOKEN : pystr := [167%N].
Definition START_TOKEN : pystr := [9654%N].
Definition STOP_TOKEN : pystr := [9632%N].

(** [ChatApp.__init__], before the first [refresh_models]. *)
Definition app_init : ChatApp := {|
  current_model := None;
  attached_image_path := None;
  last_assistant_index := None;
  model_running := true;
  histories := ∅;
  history := [];
  input_box := [];
  model_listbox := [];
  model_label := py "Model: (none)"
|}.

Definition set_history (a : ChatApp) (w : textbox) : ChatApp :=
  {| current_model := current_model a;
     attached_image_path := attached_image_path a;
     last_assistant_index := last_assistant_index a;
     model_running := model_running a;
     histories := histories a;
     history := w;
     input_box := input_box a;
     model_listbox := model_listbox a;
     model_label := model_label a |}.

Definition set_last_assistant_index (a : ChatApp) (i : option nat) : ChatApp :=
  {| current_model := current_model a;
     attached_image_path := attached_image_path a;
     last_assistant_index := i;
     model_running := model_running a;
     histories := histories a;
     history := history a;
     input_box := input_box a;
     model_listbox := model_listbox a;
     model_label := model_label a |}.

Definition set_histories (a : ChatApp) (h : gmap pystr (list entry)) : ChatApp :=
  {| current_model := current_model a;
     attached_image_path := attached_image_path a;
     last_assistant_index := last_assistant_index a;
     model_running := model_running a;
     histories := h;
     history := history a;
     input_box := input_box a;
     model_listbox := model_listbox a;
     model_label := model_label a |}.

Definition set_model_running (a : ChatApp) (b : bool) : ChatApp :=
  {| current_model := current_model a;
     attached_image_path := attached_image_path a;
     last_assistant_index := last_assistant_index a;
     model_running := b;
     histories := histories a;
     history := history a;
     input_box := input_box a;
     model_listbox := model_listbox a;
     model_label := model_label a |}.

Definition set_input_box (a : ChatApp) (s : pystr) : ChatApp :=
  {| current_model := current_model a;
     attached_image_path := attached_image_path a;
     last_assistant_index := last_assistant_index a;
     model_running := model_running a;
     histories := histories a;
     history := history a;
     input_box := s;
     model_listbox := model_listbox a;
     model_label := model_label a |}.

Definition set_attached_image_path (a : ChatApp) (p : option pystr) : ChatApp :=
  {| current_model := current_model a;
     attached_image_path := p;
     last_assistant_index := last_assistant_index a;
     model_running := model_running a;
     histories := histories a;
     history := history a;
     input_box := input_box a;
     model_listbox := model_listbox a;
     model_label := model_label a |}.

Definition set_current_model (a : ChatApp) (m : pystr) : ChatApp :=
  {| current_model := Some m;
     attached_image_path := attached_image_path a;
     last_assistant_index := last_assistant_index a;
     model_running := model_running a;
     histories := histories a;
     history := history a;
     input_box := input_box a;
     model_listbox := model_listbox a;
     model_label := py "Model: " ++ m |}.

(** [histories.get(model, [])] *)
Definition turns_for (h : gmap pystr (list entry)) (model : pystr)
  : list entry :=
  default [] (h !! model).

(** [histories.setdefault(model, []).append(e)] *)
Definition record_entry (h : gmap pystr (list entry)) (model : pystr)
    (e : entry) : gmap pystr (list entry) :=
  <[model := turns_for h model ++ [e]]> h.

(** [sep = "\n\n" if existing.strip() else ""] *)
Definition separator (w : textbox) : pystr :=
  if nonempty (strip (textbox_get w)) then NL ++ NL else [].

Section App.
Context `{Host}.

Definition _insert_user_text (text : pystr) (a : ChatApp) : ChatApp :=
  let txt := ensure_str (VStr text) in
  let sep := separator (history a) in
  set_history a
    (textbox_insert_end (history a) (sep ++ py "User: " ++ txt ++ NL)).

Definition _insert_assistant_text (text : pystr) (a : ChatApp) : ChatApp :=
  let txt := ensure_str (VStr text) in
  let sep := separator (history a) in
  let start_index := textbox_index_end (history a) in
  set_last_assistant_index
    (set_history a
       (textbox_insert_end (history a)
          (sep ++ py "Assistant: " ++ txt ++ NL)))
    (Some start_index).

Definition append_user (text : pystr) (record : bool) (a : ChatApp) : ChatApp :=
  let txt := ensure_str (VStr text) in
  let a1 :=
    match current_model a with
    | Some m =>
        if nonempty m && record
        then set_histories a (record_entry (histories a) m (EUser txt))
        else a
    | None => a
    end in
  _insert_user_text txt a1.

Definition append_assistant (text : pystr) (placeholder record : bool)
    (a : ChatApp) : ChatApp :=
  let txt := ensure_str (VStr text) in
  let a1 :=
    match current_model a with
    | Some m =>
        if nonempty m && (record && negb placeholder)
        then set_histories a
               (record_entry (histories a) m (EAssistant txt))
        else a
    | None => a
    end in
  if placeholder then
    let sep := separator (history a1) in
    let start_index := textbox_index_end (history a1) in
    set_last_assistant_index
      (set_history a1
         (textbox_insert_end (history a1)
            (sep ++ py "Assistant: " ++ txt ++ NL)))
      (Some start_index)
  else _insert_assistant_text txt a1.

(** [append_image(pil_image, caption, record)]; the image itself is
    one position of the widget. *)
Definition append_image (caption : option pystr) (record : bool)
    (a : ChatApp) : ChatApp :=
  if negb PIL_AVAILABLE then a
  else
    let sep := separator (history a) in
    let w1 := textbox_insert_end (history a) sep ++ [Img] in
    let w2 :=
      match caption with
      | Some c =>
          if nonempty c then textbox_insert_end w1 (NL ++ c ++ NL)
          else textbox_insert_end w1 NL
      | None => textbox_insert_end w1 NL
      end in
    let a1 := set_history a w2 in
    match current_model a1, attached_image_path a1 with
    | Some m, Some path =>
        if nonempty m && record && nonempty path
        then set_histories a1
               (record_entry (histories a1) m (EImage path caption))
        else a1
    | _, _ => a1
    end.

(** The body of [for entry in entries] in [on_model_select]. *)
Definition show_entry (e : entry) (a : ChatApp) : ChatApp :=
  match e with
  | EUser text => _insert_user_text text a
  | EAssistant text => _insert_assistant_text text a
  | EImage path caption =>
      if PIL_AVAILABLE && nonempty path then
        if image_opens path
        then append_image caption false a
        else _insert_user_text
               (match caption with
                | Some c => if nonempty c then c else py "Image"
                | None => py "Image"
                end) a
      else a
  end.

(** [on_model_select]; [sel] is the selected row of the list box, if
    any. *)
Definition on_model_select (sel : option nat) (a : ChatApp) : ChatApp :=
  match sel with
  | None => a
  | Some i =>
      let model := default [] (model_listbox a !! i) in
      let a1 := set_current_model a model in
      let a2 := set_history a1 [] in
      let entries := turns_for (histories a2) model in
      let a3 := foldl (fun acc e => show_entry e acc) a2 entries in
      set_last_assistant_index a3 None
  end.

(** [handle_special_token(token)] *)
Definition handle_special_token (token : pystr) (a : ChatApp)
  : ChatApp * list effect :=
  if pystr_eqb token CLEAR_TOKEN then
    match current_model a with
    | Some (c :: m) =>
        let model := c :: m in
        let a1 := set_history a [] in
        let a2 :=
          if bool_decide (is_Some (histories a1 !! model))
          then set_histories a1 (<[model := []]> (histories a1))
          else a1 in
        (a2, [ShowInfo (py "Clear")
                (py "Cleared history for model: " ++ model)])
    | _ =>
        (a, [ShowInfo (py "Clear")
               (py "No model selected to clear history for.")])
    end
  else if pystr_eqb token START_TOKEN then
    if model_running a
    then (a, [ShowInfo (py "Model") (py "Model already running.")])
    else (set_model_running a true,
          [ShowInfo (py "Model") (py "Model started.")])
  else if pystr_eqb token STOP_TOKEN then
    if negb (model_running a)
    then (a, [ShowInfo (py "Model") (py "Model already stopped.")])
    else (set_model_running a false,
          [ShowInfo (py "Model")
             (py "Model stopped. Sending messages disabled until start.")])
  else (a, []).

Definition system_prompt : message := {|
  role := py "system";
  content :=
    py "You are an assistant that describes images." ++ NL ++
    py "When a user message contains an attached image, " ++
    py "treat that image as the primary content." ++ NL ++
    py "Do not mention upload mechanisms." ++ NL ++
    py "Only describe visible content.";
  images := None
|}.

(** [user_text in (CLEAR_TOKEN, START_TOKEN, STOP_TOKEN)] *)
Definition is_token (user_text : pystr) : bool :=
  pystr_eqb user_text CLEAR_TOKEN || pystr_eqb user_text START_TOKEN
  || pystr_eqb user_text STOP_TOKEN.

(** [on_send()] *)
Definition on_send (a : ChatApp) : ChatApp * list effect :=
  match current_model a with
  | Some (c :: m) =>
      let model := c :: m in
      let user_text := strip (input_box a) in
      if negb (nonempty user_text) && negb (is_set (attached_image_path a))
      then (a, [ShowWarning (py "Empty")
                  (py "Write a message or attach an image.")])
      else if is_token user_text && negb (is_set (attached_image_path a))
      then
        let (a1, shown) := handle_special_token user_text a in
        (set_input_box a1 [], shown)
      else if negb (model_running a)
      then (a, [ShowWarning (py "Model stopped")
                  (py "Model is stopped. Press " ++ START_TOKEN
                   ++ py " to start it.")])
      else
        let attached :=
          if is_set (attached_image_path a)
          then Some (default [] (attached_image_path a))
          else None in
        let encoded : result (option (list pystr)) :=
          match attached with
          | Some path =>
              match read_file path with
              | Some img_bytes => Ok (Some [b64encode img_bytes])
              | None => Raise OSError
              end
          | None => Ok None
          end in
        match encoded with
        | Raise exc => (a, [ShowError (py "Image Error") (exn_str exc)])
        | Ok imgs =>
            let user_msg := {| role := py "user"; content := user_text;
                               images := imgs |} in
            let messages := [system_prompt; user_msg] in
            let a1 :=
              if nonempty user_text then append_user user_text true a
              else if is_set (attached_image_path a)
              then append_user (py "Sent an image") true a
              else a in
            let a2 := set_input_box a1 [] in
            let a3 := set_attached_image_path a2 None in
            (a3, [StartStream model messages])
        end
  | _ => (a, [ShowWarning (py "No model")
                (py "Select a model from the left before sending.")])
  end.

End App.

(** ** Streaming

    [_stream_response] runs on a worker thread.  It touches the
    application in two ways only: it queues callbacks for the Tk main
    loop with [after(0, ...)], run there in the order queued, and at the
    end of the stream it reads [current_model] and appends to
    [histories].  The worker is therefore embedded as a machine whose
    steps are the points where it meets the application, and the main
    loop as a machine taking callbacks off the queue. *)

(** Callbacks queued with [after(0, ...)]. *)
Inductive callback : Type :=
| Placeholder
| UpdateBlock (acc_text : pystr)
| ChatFailed (exc : exn).

(** Control points of [_stream_response(model, messages)]: before the
    [try], inside the [for] loop with the accumulator and the rest of
    the generator's run, and after the function has returned. *)
Inductive worker : Type :=
| Starting (model : pystr) (stream : list pystr * option exn)
| Streaming (model : pystr) (acc : pystr) (stream : list pystr * option exn)
| Finished.

Record world : Type := {
  gui : ChatApp;
  queue : list callback;
  shown : list effect
}.

Definition with_gui (σ : world) (a : ChatApp) : world :=
  {| gui := a; queue := queue σ; shown := shown σ |}.

(** [self.after(0, cb)] *)
Definition after (cb : callback) (σ : world) : world :=
  {| gui := gui σ; queue := queue σ ++ [cb]; shown := shown σ |}.

Definition show (es : list effect) (σ : world) : world :=
  {| gui := gui σ; queue := queue σ; shown := shown σ ++ es |}.

Section Streaming.
Context `{Host}.

(** The fallback of [update_block] used when no index is known: cut
    the text at the last ["\n\nAssistant:"], else at the last
    ["Assistant:"], and put back what precedes it. *)
Definition cut_at_last_assistant (w : textbox) : textbox :=
  let all_text := textbox_get w in
  let idx :=
    match rfind all_text (NL ++ NL ++ py "Assistant:") with
    | Some i => Some i
    | None => rfind all_text (py "Assistant:")
    end in
  match idx with
  | Some i =>
      let pre := take i all_text in
      textbox_insert_end [] pre
  | None => w
  end.

(** [update_block(acc_text)] *)
Definition update_block (acc_text : pystr) (a : ChatApp) : ChatApp :=
  let w1 :=
    match last_assistant_index a with
    | Some index => textbox_delete_from (history a) index
    | None => cut_at_last_assistant (history a)
    end in
  let sep := separator w1 in
  let start_index := textbox_index_end w1 in
  let w2 := textbox_insert_end w1
              (sep ++ py "Assistant: " ++ acc_text ++ NL) in
  set_last_assistant_index (set_history a w2) (Some start_index).

(** One callback run by the main loop. *)
Definition run_callback (cb : callback) (σ : world) : world :=
  match cb with
  | Placeholder =>
      with_gui σ (append_assistant (py "...") true false (gui σ))
  | UpdateBlock acc_text => with_gui σ (update_block acc_text (gui σ))
  | ChatFailed exc =>
      show [ShowError (py "Error")
              (py "Chat failed:" ++ NL ++ exn_str exc)] σ
  end.

(** The statements of [_stream_response] after the [for] loop, reached
    when the stream ended normally. *)
Definition commit_final (acc : pystr) (a : ChatApp) : ChatApp :=
  let final_text := strip acc in
  match current_model a with
  | Some m =>
      if nonempty final_text && nonempty m
      then set_histories a
             (record_entry (histories a) m (EAssistant final_text))
      else a
  | None => a
  end.

(** [_stream_response(model, messages)], one step at a time: queue the
    placeholder; take the next chunk, add it to [acc] and queue
    [update_block] with the value [acc] has now; at the end of the
    stream commit; on an exception queue the error dialog. *)
Definition _stream_response_step (w : worker) (σ : world) : worker * world :=
  match w with
  | Starting model stream => (Streaming model [] stream, after Placeholder σ)
  | Streaming model acc (chunk :: rest, ending) =>
      let chunk := ensure_str (VStr chunk) in
      let acc := acc ++ chunk in
      (Streaming model acc (rest, ending), after (UpdateBlock acc) σ)
  | Streaming model acc ([], None) =>
      (Finished, with_gui σ (commit_final acc (gui σ)))
  | Streaming model acc ([], Some exc) =>
      (Finished, after (ChatFailed exc) σ)
  | Finished => (Finished, σ)
  end.

(** Threads started by the effects of a handler. *)
Fixpoint spawn (es : list effect) : list worker :=
  match es with
  | [] => []
  | StartStream model messages :: es' =>
      Starting model (chat_stream (post_chat model messages)) :: spawn es'
  | _ :: es' => spawn es'
  end.

(** What can happen next: the [i]-th worker thread advances, the main
    loop runs the callback at the head of its queue, or the user acts
    (selects a row of the model list, edits the input box, sends). *)
Inductive action : Type :=
| Work (i : nat)
| Idle
| Select (row : nat)
| Type_ (text : pystr)
| Send.

Definition step (act : action) (s : list worker * world)
  : list worker * world :=
  let (ws, σ) := s in
  match act with
  | Work i =>
      match ws !! i with
      | Some w =>
          let (w', σ') := _stream_response_step w σ in
          (<[i := w']> ws, σ')
      | None => (ws, σ)
      end
  | Idle =>
      match queue σ with
      | [] => (ws, σ)
      | cb :: q =>
          (ws, run_callback cb
                 {| gui := gui σ; queue := q; shown := shown σ |})
      end
  | Select row => (ws, with_gui σ (on_model_select (Some row) (gui σ)))
  | Type_ text => (ws, with_gui σ (set_input_box (gui σ) text))
  | Send =>
      let (a, es) := on_send (gui σ) in
      (ws ++ spawn es, show es (with_gui σ a))
  end.

Definition run (acts : list action) (s : list worker * world)
  : list worker * world :=
  foldl (fun s act => step act s) s acts.

(** The number of [update_block] callbacks the main loop has run
    during [acts]. *)
Fixpoint updates_applied (acts : list action) (s : list worker * world)
  : nat :=
  match acts with
  | [] => 0
  | act :: acts' =>
      match act, queue (snd s) with
      | Idle, UpdateBlock _ :: _ => S (updates_applied acts' (step act s))
      | _, _ => updates_applied acts' (step act s)
      end
  end.

(** Steps of a stream left alone by the user. *)
Definition stream_action (act : action) : bool :=
  match act with
  | Work _ | Idle => true
  | _ => false
  end.

End Streaming.

(** ** The documented behaviour of the stream decoder (section 4.2)

    Written from the words of the specification, for comparison with
    [chat_stream]. *)
Module DecoderSpec.
Section DecoderSpec.
Context `{Host}.

(** [not raw] on a [bytes] object. *)
Definition is_payload (raw : pybytes) : bool :=
match raw with [] => false | _ => true end.

(** The fragment emitted for one non-empty line: the raw line when it
  does not decode as JSON, the line's original text when it decodes
  but nothing is extracted, the extracted text otherwise. *)
Definition emits (raw : pybytes) (fragment : pystr) : Prop :=
let line := decode_utf8 raw in
(json_loads line = Raise JSONDecodeError -> fragment = line)
/\ (forall obj, json_loads line = Ok obj ->
               extract_text_from_obj obj = Ok None -> fragment = line)
/\ (forall obj text, json_loads line = Ok obj ->
                    extract_text_from_obj obj = Ok (Some text) ->
                    fragment = text).

(** A line on which [json.loads] either returns or raises
  [JSONDecodeError], the one exception [chat_stream] catches. *)
Definition decodes_or_is_refused (raw : pybytes) : Prop :=
forall exc, json_loads (decode_utf8 raw) = Raise exc -> exc = JSONDecodeError.

End DecoderSpec.
End DecoderSpec.

(** ** The documented normalisation of model listings (section 4.3)

    Written from the words of the specification, for comparison with
    [refresh_models]. *)
Module ListingSpec.
Section ListingSpec.
Context `{Host}.

(** The identifier of one entry: the plain string itself, or the
  object's [name] field, or otherwise its string representation. *)
Definition identifier (m : json) : pystr :=
match m with
| JStr s => s
| JObj fields =>
    match dict_lookup fields (py "name") with
    | Some (JStr n) => n
    | _ => py_repr m
    end
| _ => py_repr m
end.

(** An entry of a valid listing: an object entry carries a [name]
  field holding a string. *)
Definition valid_entry (m : json) : Prop :=
match m with
| JObj fields => exists n, dict_lookup fields (py "name") = Some (JStr n)
| _ => True
end.

End ListingSpec.
End ListingSpec.

(** ** Observations on a stream

    What the main loop is expected to show and to run for a stream
    [(fragments, ending)] begun on the application [a0]; used to state
    and prove the streaming properties. *)
Section Expected.
Context `{Host}.
Variable a0 : ChatApp.
Variable fragments : list pystr.
Variable ending : option exn.

(** The history widget of [a0] followed by one assistant block. *)
Definition block (text : pystr) : textbox :=
  history a0
  ++ map Ch (separator (history a0) ++ py "Assistant: " ++ text ++ NL).

(** All callbacks the worker queues, in order. *)
Definition callbacks : list callback :=
  Placeholder
  :: map (fun j => UpdateBlock (concat (take j fragments)))
         (seq 1 (length fragments))
  ++ match ending with
     | Some exc => [ChatFailed exc]
     | None => []
     end.

(** A widget content less the line feed at its end, if it ends in
    one. *)
Definition without_last_newline (w : textbox) : textbox :=
  match rev w with
  | Ch c :: r => if N.eqb c 10 then rev r else w
  | _ => w
  end.

(** What is left of the history widget of [a0] in front of the
    assistant block once [j] updates have cut the block off: each cut
    starts where the block began and takes the line feed before that
    place along, if there is one. *)
Fixpoint kept_before (j : nat) : textbox :=
  match j with
  | 0 => history a0
  | S j' => without_last_newline (kept_before j')
  end.

(** The assistant block as the [j]-th update draws it. *)
Definition block_after (j : nat) (text : pystr) : textbox :=
  kept_before j
  ++ map Ch (separator (kept_before j) ++ py "Assistant: " ++ text ++ NL).

(** Updates among the first [k] callbacks. *)
Definition updates_in (k : nat) : nat := (k - 1) `min` length fragments.

(** The widget and index after the first [k] callbacks. *)
Definition history_after (k : nat) : textbox :=
  match k with
  | 0 => history a0
  | S _ =>
      match updates_in k with
      | 0 => block (py "...")
      | j => block_after j (concat (take j fragments))
      end
  end.

Definition index_after (k : nat) : option nat :=
  match k with
  | 0 => last_assistant_index a0
  | S _ => Some (length (kept_before (updates_in k)))
  end.

(** The histories once the worker has finished. *)
Definition histories_after : gmap pystr (list entry) :=
  match ending with
  | None => histories (commit_final (concat fragments) a0)
  | Some _ => histories a0
  end.

(** How far the worker is: [m] callbacks queued so far. *)
Definition progress (w : worker) (m : nat) : Prop :=
  match w with
  | Starting _ stream => stream = (fragments, ending) /\ m = 0
  | Streaming _ acc (rest, e) =>
      e = ending
      /\ exists seen, fragments = seen ++ rest /\ acc = concat seen
                     /\ m = S (length seen)
  | Finished => m = length callbacks
  end.

Definition is_finished (w : worker) : bool :=
  match w with Finished => true | _ => false end.

(** The state of a stream left alone by the user after the main loop
    has run [k] callbacks. *)
Definition stream_inv (s : list worker * world) (k : nat) : Prop :=
  exists w m,
    s.1 = [w] /\ progress w m /\ k <= m
    /\ queue s.2 = drop k (take m callbacks)
    /\ history (gui s.2) = history_after k
    /\ last_assistant_index (gui s.2) = index_after k
    /\ current_model (gui s.2) = current_model a0
    /\ histories (gui s.2)
       = if is_finished w then histories_after else histories a0.

End Expected.

(** ** A small host, to run the embedding on concrete inputs *)
Module Demo.

Definition bytes_of (s : string) : pybytes := list_byte_of_string s.

(** The bytes of a JSON string literal without escapes. *)
Definition quoted (s : string) : pybytes :=
  Byte.x22 :: bytes_of s ++ [Byte.x22].

(** Decoding of ASCII bytes. *)
Definition decode (raw : pybytes) : pystr := map Byte.to_N raw.

Definition q (s : string) : pystr := 34%N :: py s ++ [34%N].

(** Two model listings as the server words them. *)
Definition plain_listing : pystr :=
  py "[" ++ q "llama3" ++ py ",{" ++ q "name" ++ py ":" ++ q "phi"
  ++ py "},3]".

Definition wrapped_listing : pystr :=
  py "{" ++ q "tags" ++ py ":" ++ plain_listing ++ py "}".

Definition entries : list json :=
  [JStr (py "llama3"); JObj [(py "name", JStr (py "phi"))]; JInt 3].

(** The digits [1] to [9]. *)
Definition is_digit19 (c : N) : bool := ((49 <=? c) && (c <=? 57))%N.

(** [sys.int_info.default_max_str_digits] *)
Definition max_str_digits : nat := 4300.

(** A line of [n] digits [1]. *)
Definition ones (n : nat) : pybytes := replicate n Byte.x31.

(** [json.loads] on the two listings, on the literal [null], on
    strings without escapes and on integers written with the digits [1]
    to [9], which raise [ValueError] beyond [max_str_digits] digits;
    every other text is refused with [JSONDecodeError]. *)
Definition loads (line : pystr) : result json :=
  if pystr_eqb line plain_listing then Ok (JArr entries)
  else if pystr_eqb line wrapped_listing
  then Ok (JObj [(py "tags", JArr entries)])
  else if pystr_eqb line (py "null") then Ok JNull
  else
    match line with
    | 34%N :: rest =>
        match rev rest with
        | 34%N :: ydob =>
            if forallb (fun c => negb (N.eqb c 34 || N.eqb c 92)) ydob
            then Ok (JStr (rev ydob))
            else Raise JSONDecodeError
        | _ => Raise JSONDecodeError
        end
    | _ :: _ =>
        if forallb is_digit19 line then
          if (max_str_digits <? length line)%nat then Raise ValueError
          else Ok (JInt (fold_left (fun v d => (10 * v + Z.of_N d - 48)%Z)
                           line 0%Z))
        else Raise JSONDecodeError
    | [] => Raise JSONDecodeError
    end.

(** A blob store that refuses PUT with 405 and accepts POST; its
    state counts the requests received. *)
Definition blob_server (r : request) (received : nat) : result Z * nat :=
  match req_method r with
  | PUT => (Ok 405%Z, S received)
  | POST => (Ok 201%Z, S received)
  end.

(** The server streams two payload lines around a blank one. *)
Definition server (model : pystr) (messages : list message)
  : result stream_reply :=
  Ok {| stream_status := 200;
        stream_lines := [Line (bytes_of "He"); Line [];
                         Line (bytes_of "llo!")] |}.

Definition host : Host := {|
  decode_utf8 := decode;
  json_loads := loads;
  py_repr := fun v => match v with JInt 3 => py "3" | _ => py "<object>" end;
  exn_str := fun _ => py "<error>";
  sha256_hexdigest := fun data => decode data;
  b64encode := fun data => decode data;
  read_file := fun path =>
    if pystr_eqb path (py "cat.png") then Some (bytes_of "PNG") else None;
  PIL_AVAILABLE := false;
  image_opens := fun _ => false;
  post_chat := server
|}.

(** The application with models [m1] and [m2] listed and [m1]
    selected. *)
Definition listed : ChatApp :=
  on_model_select (H := host) (Some 0)
    {| current_model := None;
       attached_image_path := None;
       last_assistant_index := None;
       model_running := true;
       histories := ∅;
       history := [];
       input_box := [];
       model_listbox := [py "m1"; py "m2"];
       model_label := py "Model: (none)" |}.

(** The same after an exchange with [m1], the model stopped and a new
    input typed. *)
Definition stopped (typed : pystr) : ChatApp :=
  {| current_model := Some (py "m1");
     attached_image_path := None;
     last_assistant_index := None;
     model_running := false;
     histories := {[ py "m1" := [EUser (py "hi"); EAssistant (py "Hello!")] ]};
     history := [];
     input_box := typed;
     model_listbox := [py "m1"; py "m2"];
     model_label := py "Model: m1" |}.

Definition start : list worker * world :=
  ([], {| gui := listed; queue := []; shown := [] |}).

(** The window once the user has typed [hi] and sent it to [m1]. *)
Definition sent : ChatApp :=
  (on_send (H := host) (set_input_box listed (py "hi"))).1.

End Demo.

(** ** The rest of the client and of the window *)

(** [s.rstrip("/")], as [OllamaClient.__init__] applies it to
    [base_url]. *)
Fixpoint lstrip_slash (s : pystr) : pystr :=
  match s with
  | [] => []
  | c :: s' => if N.eqb c 47 then lstrip_slash s' else s
  end.

Definition rstrip_slash (s : pystr) : pystr := rev (lstrip_slash (rev s)).

(** The [base_url] attribute set by [OllamaClient.__init__]. *)
Definition client_base_url (base_url : pystr) : pystr := rstrip_slash base_url.

(** [content.count("\n")] *)
Fixpoint count_newlines (s : pystr) : Z :=
  match s with
  | [] => 0
  | c :: s' => (if N.eqb c 10 then 1 else 0) + count_newlines s'
  end.

(** The [ExpandingEntry] text widget: its content on both sides of the
    insertion cursor, its height in lines and the bounds given to the
    constructor. *)
Record ExpandingEntry : Type := {
  before_cursor : pystr;
  after_cursor : pystr;
  height : Z;
  min_lines : Z;
  max_lines : Z
}.

(** [get("1.0", "end-1c")] *)
Definition entry_content (e : ExpandingEntry) : pystr :=
  before_cursor e ++ after_cursor e.

(** [ExpandingEntry._on_key_release] *)
Definition _on_key_release (e : ExpandingEntry) : ExpandingEntry :=
  let content := entry_content e in
  let lines :=
    if nonempty (strip content) then (count_newlines content + 1)%Z
    else 1%Z in
  let new_h := Z.max (min_lines e) (Z.min (max_lines e) lines) in
  {| before_cursor := before_cursor e;
     after_cursor := after_cursor e;
     height := new_h;
     min_lines := min_lines e;
     max_lines := max_lines e |}.

(** [ExpandingEntry._on_return(event)].  [state] is [event.state], or
    [None] when it is not an integer and the [try] fails.  The widget is
    part of a window whose other state has type [S]; [send_callback],
    given to the constructor, runs on the widget and that state and may
    change both, and what it leaves is what the method leaves. *)
Definition _on_return {S : Type}
    (send_callback : ExpandingEntry * S -> ExpandingEntry * S)
    (state : option Z) (es : ExpandingEntry * S) : ExpandingEntry * S :=
  let (e, s) := es in
  let shift_held :=
    match state with
    | Some st => negb (Z.eqb (Z.land st 1) 0)
    | None => false
    end in
  if shift_held then
    (_on_key_release
       {| before_cursor := before_cursor e ++ NL;
          after_cursor := after_cursor e;
          height := height e;
          min_lines := min_lines e;
          max_lines := max_lines e |},
     s)
  else
    let content := entry_content e in
    if nonempty (strip content) then send_callback (e, s) else (e, s).

(** [ExpandingEntry.get_text] *)
Definition get_text (e : ExpandingEntry) : pystr := strip (entry_content e).

(** [ExpandingEntry.clear] *)
Definition entry_clear (e : ExpandingEntry) : ExpandingEntry :=
  {| before_cursor := [];
     after_cursor := [];
     height := min_lines e;
     min_lines := min_lines e;
     max_lines := max_lines e |}.

Section Window.
Context `{Host}.

(** [_send_special(token)], the command of the three top-bar buttons. *)
Definition _send_special (token : pystr) (a : ChatApp)
  : ChatApp * list effect :=
  on_send (set_input_box a token).

(** [attach_image()]; [chosen] is what the file dialog returned. *)
Definition attach_image (chosen : option pystr) (a : ChatApp)
  : ChatApp * list effect :=
  match chosen with
  | Some (c :: p) =>
      let path := c :: p in
      let a1 := set_attached_image_path a (Some path) in
      if PIL_AVAILABLE then
        if image_opens path
        then (append_image (Some (py "Image attached")) true a1, [])
        else (a1, [ShowError (py "Image Error") (exn_str OSError)])
      else
        let a2 :=
          match current_model a1 with
          | Some m =>
              if nonempty m
              then set_histories a1
                     (record_entry (histories a1) m
                        (EImage path (Some (py "Image attached"))))
              else a1
          | None => a1
          end in
        (a2, [ShowInfo (py "Attached") (py "Image selected: " ++ path)])
  | _ => (a, [])
  end.

End Window.

(** ** Predicates used to state further properties *)

(** A text without leading or trailing whitespace that is not empty. *)
Definition clean_text (s : pystr) : Prop :=
  nonempty s = true /\ strip s = s.

Definition clean_entry (e : entry) : Prop :=
  match e with
  | EUser text | EAssistant text => clean_text text
  | EImage _ _ => True
  end.

(** Every stored user or assistant turn holds a clean text. *)
Definition clean_histories (h : gmap pystr (list entry)) : Prop :=
  forall (m : pystr) (turns : list entry),
    h !! m = Some turns -> Forall clean_entry turns.

Definition is_text_entry (e : entry) : bool :=
  match e with
  | EUser _ | EAssistant _ => true
  | EImage _ _ => false
  end.

(** The line a stored turn is shown as. *)
Definition turn_line (e : entry) : pystr :=
  match e with
  | EUser text => py "User: " ++ text ++ NL
  | EAssistant text => py "Assistant: " ++ text ++ NL
  | EImage _ _ => []
  end.

(** A transcript: the lines of the text turns, each but the first
    preceded by two line feeds. *)
Fixpoint transcript_from (first : bool) (turns : list entry) : pystr :=
  match turns with
  | [] => []
  | e :: turns' =>
      if is_text_entry e
      then (if first then [] else NL ++ NL) ++ turn_line e
           ++ transcript_from false turns'
      else transcript_from first turns'
  end.

Definition transcript (turns : list entry) : pystr :=
  transcript_from true turns.

(** ** A second small host *)

(** A listing as Ollama words it: the list under the key [models]. *)
Definition models_listing : pystr :=
  py "{" ++ Demo.q "count" ++ py ":3," ++ Demo.q "models" ++ py ":"
  ++ Demo.plain_listing ++ py "}".

(** The host [Demo.host], its [json.loads] knowing [models_listing]
    too. *)
Definition listing_host : Host := {|
  decode_utf8 := Demo.decode;
  json_loads := fun text =>
    if pystr_eqb text models_listing
    then Ok (JObj [(py "count", JInt 3); (py "models", JArr Demo.entries)])
    else Demo.loads text;
  py_repr := fun v => match v with JInt 3 => py "3" | _ => py "<object>" end;
  exn_str := fun _ => py "<error>";
  sha256_hexdigest := fun data => Demo.decode data;
  b64encode := fun data => Demo.decode data;
  read_file := fun path =>
    if pystr_eqb path (py "cat.png") then Some (Demo.bytes_of "PNG") else None;
  PIL_AVAILABLE := true;
  image_opens := fun path => pystr_eqb path (py "cat.png");
  post_chat := Demo.server
|}.

(** Two application states that agree on everything a model selection
    reads or keeps: attachment, run flag, histories, input box and
    model list. *)
Definition same_core (x y : ChatApp) : Prop :=
  attached_image_path x = attached_image_path y
  /\ model_running x = model_running y
  /\ histories x = histories y
  /\ input_box x = input_box y
  /\ model_listbox x = model_listbox y.

(** Two application states that differ at most in
    [last_assistant_index]. *)
Definition same_but_index (x y : ChatApp) : Prop :=
  set_last_assistant_index x None = set_last_assistant_index y None.

(** ** Error dialogs of a stream *)

Section Dialogs.
Context `{Host}.

(** The dialog the [ChatFailed] callback shows. *)
Definition chat_failed_dialog (exc : exn) : effect :=
  ShowError (py "Error") (py "Chat failed:" ++ NL ++ exn_str exc).

(** The dialogs the callbacks still queued will show. *)
Fixpoint dialogs_queued (q : list callback) : list effect :=
  match q with
  | [] => []
  | ChatFailed exc :: q' => chat_failed_dialog exc :: dialogs_queued q'
  | _ :: q' => dialogs_queued q'
  end.

(** The dialog a worker is still to ask for. *)
Definition dialogs_to_come (w : worker) : list effect :=
  match w with
  | Starting _ (_, Some exc) | Streaming _ _ (_, Some exc) =>
      [chat_failed_dialog exc]
  | _ => []
  end.

End Dialogs.

(** The application is stopped while an attachment is pending. *)
Definition stopped_with_attachment (a : ChatApp) : Prop :=
  model_running a = false /\ is_set (attached_image_path a) = true.

(** The warning of [on_send] for an empty message. *)
Definition empty_warning : effect :=
  ShowWarning (py "Empty") (py "Write a message or attach an image.").

(** * Properties *)

(** ** The content extractor *)

Lemma py_get_obj fields k :
  py_get (JObj fields) k = Ok (default JNull (dict_lookup fields k)).
Proof. reflexivity. Qed.

Lemma str_item_obj fields k :
  str_item (JObj fields) k = Ok (Spec.str_field (JObj fields) k).
Proof.
  unfold str_item, Spec.str_field, Spec.field; simpl.
  destruct (dict_lookup fields k) as [v|] eqn:E; simpl.
  - by destruct v.
  - reflexivity.
Qed.

Lemma first_str_get_obj fields keys :
  first_str_get (JObj fields) keys
  = Ok (Spec.first_str_field (JObj fields) keys).
Proof.
  induction keys as [|k keys IH]; [reflexivity|].
  cbn [first_str_get Spec.first_str_field].
  rewrite py_get_obj. unfold Spec.str_field, Spec.field.
  destruct (dict_lookup fields k) as [[]|]; simpl; auto.
Qed.

Lemma first_str_item_obj fields keys :
  first_str_item (JObj fields) keys
  = Ok (Spec.first_str_field (JObj fields) keys).
Proof.
  induction keys as [|k keys IH]; [reflexivity|].
  cbn [first_str_item Spec.first_str_field].
  rewrite str_item_obj.
  destruct (Spec.str_field (JObj fields) k); simpl; auto.
Qed.

Ltac run_result :=
  cbn [py_get mbind result_bind mret result_ret isinstance_dict].

Lemma part_values_ok (content : list json) :
  exists parts, part_values content = Ok parts
                /\ only_str parts = omap Spec.part_text content.
Proof.
  induction content as [|p content [parts [E1 E2]]].
  - by exists [].
  - destruct p as [| | | | |items|fields];
      try (exists parts; split; [exact E1 | exact E2]).
    cbn [part_values]. run_result.
    cbn [omap list_omap Spec.part_text Spec.field Spec.str_field].
    destruct (dict_lookup fields (py "text")) as [t|] eqn:Et; simpl default.
    + destruct (truthy t) eqn:Ht; run_result; rewrite E1; run_result.
      * exists (t :: parts). split; [reflexivity|].
        destruct t; simpl; rewrite E2; reflexivity.
      * eexists. split; [reflexivity|].
        unfold Spec.str_field, Spec.field.
        destruct (dict_lookup fields (py "content")) as [[]|];
          simpl; rewrite E2; reflexivity.
    + simpl truthy. cbv iota. run_result. rewrite E1. run_result.
      eexists. split; [reflexivity|].
      unfold Spec.str_field, Spec.field.
      destruct (dict_lookup fields (py "content")) as [[]|];
        simpl; rewrite E2; reflexivity.
Qed.

Lemma choice_text_nonobj (ch : json) :
  isinstance_dict ch = false -> Spec.choice_text ch = None.
Proof. by destruct ch. Qed.

Lemma nested_content (v : json) :
  (if isinstance_dict v then str_item v (py "content") else mret None)
  = Ok (Spec.str_field v (py "content")).
Proof. destruct v; try reflexivity. apply str_item_obj. Qed.

Lemma choice_body {A} fields (K : option pystr -> result A) :
  (t ← str_item (JObj fields) (py "text");
   match t with
   | Some s => K (Some s)
   | None =>
       cmsg ← py_get (JObj fields) (py "message");
       m ← (if isinstance_dict cmsg then str_item cmsg (py "content")
            else mret None);
       match m with
       | Some s => K (Some s)
       | None =>
           cdelta ← py_get (JObj fields) (py "delta");
           d ← (if isinstance_dict cdelta then str_item cdelta (py "content")
                else mret None);
           match d with
           | Some s => K (Some s)
           | None => K None
           end
       end
   end) = K (Spec.choice_text (JObj fields)).
Proof.
  rewrite str_item_obj. unfold Spec.choice_text.
  cbn [py_get mbind result_bind mret result_ret].
  destruct (Spec.str_field (JObj fields) (py "text")); [reflexivity|].
  rewrite !nested_content. cbn [mbind result_bind]. unfold Spec.field.
  destruct (dict_lookup fields (py "message")) as [m|]; simpl default;
    cbn [mbind option_bind].
  - destruct (Spec.str_field m (py "content")); [reflexivity|].
    destruct (dict_lookup fields (py "delta")) as [d|]; simpl default;
      cbn [mbind option_bind].
    + by destruct (Spec.str_field d (py "content")).
    + reflexivity.
  - change (Spec.str_field JNull (py "content")) with (@None pystr).
    destruct (dict_lookup fields (py "delta")) as [d|]; simpl default;
      cbn [mbind option_bind].
    + by destruct (Spec.str_field d (py "content")).
    + reflexivity.
Qed.

Lemma choices_texts_ok (choices : list json) (texts : list pystr) :
  choices_texts choices texts
  = Ok (texts ++ omap Spec.choice_text choices).
Proof.
  revert texts. induction choices as [|ch choices IH]; intros texts.
  - simpl. by rewrite app_nil_r.
  - cbn [choices_texts omap list_omap].
    destruct (isinstance_dict ch) eqn:Hd.
    2:{ rewrite choice_text_nonobj by done. apply IH. }
    destruct ch as [| | | | | |fields]; try discriminate.
    etrans; [apply (choice_body fields (fun c =>
      match c with
      | Some s => choices_texts choices (texts ++ [s])
      | None => choices_texts choices texts
      end))|].
    destruct (Spec.choice_text (JObj fields)) as [s|]; [|apply IH].
    rewrite IH, <- app_assoc. reflexivity.
Qed.

Lemma extract_choices_refines fields :
  extract_choices (JObj fields) = Ok (Spec.match_choices (JObj fields)).
Proof.
  unfold extract_choices, Spec.match_choices, Spec.field. run_result.
  destruct (dict_lookup fields (py "choices")) as [[| | | | |chs|]|];
    try reflexivity.
  simpl default. cbv iota. rewrite choices_texts_ok. run_result.
  rewrite app_nil_l. by destruct (omap Spec.choice_text chs).
Qed.

Lemma extract_delta_refines fields :
  extract_delta (JObj fields)
  = Ok (Spec.first_match [Spec.match_delta (JObj fields);
                          Spec.match_choices (JObj fields)]).
Proof.
  unfold extract_delta, Spec.match_delta, Spec.field. run_result.
  rewrite extract_choices_refines.
  destruct (dict_lookup fields (py "delta")) as [[| | | | | |d]|];
    simpl default; run_result; try by destruct (Spec.match_choices _).
  rewrite !str_item_obj. cbn [Spec.first_str_field]. run_result.
  destruct (Spec.str_field (JObj d) (py "content")); [reflexivity|].
  destruct (Spec.str_field (JObj d) (py "text")); [reflexivity|].
  by destruct (Spec.match_choices _).
Qed.

Lemma embedded_message fields :
  (message ← py_get (JObj fields) (py "message");
   if truthy message then mret message
   else py_get (JObj fields) (py "msg"))
  = Ok (default JNull (Spec.message_or_msg (JObj fields))).
Proof.
  unfold Spec.message_or_msg, Spec.field. run_result.
  destruct (dict_lookup fields (py "message")) as [m|]; simpl default.
  - by destruct (truthy m).
  - reflexivity.
Qed.

Lemma extract_message_refines fields :
  extract_message (JObj fields)
  = Ok (Spec.first_match [Spec.match_message (JObj fields);
                          Spec.match_delta (JObj fields);
                          Spec.match_choices (JObj fields)]).
Proof.
  unfold extract_message.
  pose proof (embedded_message fields) as E.
  cbn [py_get mbind result_bind mret result_ret] in E |- *.
  rewrite E. clear E. cbn [mbind result_bind].
  rewrite extract_delta_refines. unfold Spec.match_message.
  set (rest := Spec.first_match [Spec.match_delta _; Spec.match_choices _]).
  change (Spec.first_match [?a; Spec.match_delta (JObj fields);
                            Spec.match_choices (JObj fields)])
    with (match a with Some s => Some s | None => rest end).
  destruct (Spec.message_or_msg (JObj fields)) as [[| | | | | |m]|];
    simpl default; cbn [isinstance_dict]; try reflexivity.
  rewrite first_str_item_obj. cbn [mbind result_bind mret result_ret].
  destruct (Spec.first_str_field (JObj m) _) as [s|]; [reflexivity|].
  cbn [py_contains py_getitem mbind result_bind]. unfold Spec.field.
  destruct (dict_lookup m (py "content")) as [c|]; [|reflexivity].
  rewrite bool_decide_true by eauto.
  destruct c as [| | | | |ps|]; try reflexivity.
  destruct (part_values_ok ps) as [parts [E1 E2]].
  cbn [mbind result_bind]. rewrite E1. cbn [mbind result_bind]. rewrite E2.
  by destruct (omap Spec.part_text ps).
Qed.

(** The embedded function computes the documented chain of matchers and
    raises on no decoded JSON value. *)
Lemma extract_refines (v : json) :
  extract_text_from_obj v = Ok (Spec.extract v).
Proof.
  destruct v as [| | | | | |fields]; try reflexivity.
  unfold extract_text_from_obj, Spec.extract, Spec.match_field.
  rewrite first_str_get_obj, extract_message_refines.
  cbn [mbind result_bind mret result_ret Spec.match_string Spec.first_match].
  by destruct (Spec.first_str_field (JObj fields) _).
Qed.

(** Claim C3.  The extractor follows the documented resolution order,
    first match winning: a string is returned itself; else, for an
    object, the first string-valued field among [response], [text],
    [generated_text], [output_text], [content]; else the embedded
    [message] (or [msg]) object gives its [content] or [text] string, or,
    when its [content] is a list of parts, the concatenation, in list
    order and without separator, of the [text]-or-[content] strings of
    the parts, parts without such a string being skipped.  Whenever one
    of these three rules matches, the result is the text of the first
    that does. *)
Theorem extract_follows_resolution_order (v : json) (s : pystr) :
  Spec.first_match
    [Spec.match_string v; Spec.match_field v; Spec.match_message v] = Some s ->
  extract_text_from_obj v = Ok (Some s).
Proof.
  intros Hm. rewrite extract_refines. f_equal.
  unfold Spec.extract. cbn [Spec.first_match] in *.
  destruct (Spec.match_string v); [exact Hm|].
  destruct (Spec.match_field v); [exact Hm|].
  destruct (Spec.match_message v); [exact Hm|discriminate].
Qed.

Lemma extract_follows_resolution_order_witness :
  extract_text_from_obj
    (JObj [(py "done", JBool false);
           (py "message",
            JObj [(py "role", JStr (py "assistant"));
                  (py "content",
                   JArr [JObj [(py "text", JStr (py "Hel"))];
                         JInt 7;
                         JObj [(py "type", JStr (py "image"))];
                         JObj [(py "content", JStr (py "lo"))]])])])
  = Ok (Some (py "Hello")).
Proof.
  apply extract_follows_resolution_order. vm_compute. reflexivity.
Defined.

Example extract_string : extract_text_from_obj (JStr (py "abc")) = Ok (Some (py "abc")).
Proof. reflexivity. Qed.

Example extract_field_priority :
  extract_text_from_obj
    (JObj [(py "content", JStr (py "c")); (py "text", JStr (py "t"));
           (py "response", JInt 1);
           (py "message", JObj [(py "content", JStr (py "m"))])])
  = Ok (Some (py "t")).
Proof. vm_compute. reflexivity. Qed.

Example extract_msg_when_message_empty :
  extract_text_from_obj
    (JObj [(py "message", JObj []);
           (py "msg", JObj [(py "text", JStr (py "t"))])])
  = Ok (Some (py "t")).
Proof. vm_compute. reflexivity. Qed.

Example extract_delta_and_choices :
  extract_text_from_obj
    (JObj [(py "delta", JObj [(py "text", JStr (py "d"))])])
  = Ok (Some (py "d"))
  /\ extract_text_from_obj
       (JObj [(py "choices",
               JArr [JObj [(py "text", JStr (py "a"))];
                     JNull;
                     JObj [(py "message", JObj [(py "content", JStr (py "b"))])];
                     JObj [(py "delta", JObj [(py "content", JStr (py "c"))])]])])
     = Ok (Some (py "abc")).
Proof. vm_compute. split; reflexivity. Qed.

(** How the two "or"s of the third rule read on the code: a part whose
    [text] is present, not empty and not a string is skipped even when
    its [content] is a string, and a [message] that is not empty and
    not an object hides [msg]. *)
Example extract_or_is_first_truthy :
  extract_text_from_obj
    (JObj [(py "message",
            JObj [(py "content",
                   JArr [JObj [(py "text", JInt 5);
                               (py "content", JStr (py "x"))];
                         JObj [(py "text", JStr []);
                               (py "content", JStr (py "y"))]])])])
  = Ok (Some (py "y"))
  /\ extract_text_from_obj
       (JObj [(py "message", JInt 5);
              (py "msg", JObj [(py "content", JStr (py "z"))])])
     = Ok None.
Proof. vm_compute. split; reflexivity. Qed.

(** The extractor raises on no decoded JSON value. *)
Lemma extract_total (v : json) : exists r, extract_text_from_obj v = Ok r.
Proof. exists (Spec.extract v). apply extract_refines. Qed.

Lemma scalar_matches_no_shape (v : json) :
  isinstance_str v = false -> isinstance_dict v = false ->
  Spec.matches_no_shape v.
Proof. destruct v; try discriminate; intros _ _; repeat split. Qed.

(** Claim C4.  On a decoded JSON value that matches none of the five
    documented shapes, numbers, lists and null among them, the extractor
    returns [None]; and on every decoded JSON value it returns without
    raising. *)
Theorem extract_unmatched_is_none (v : json) :
  Spec.matches_no_shape v \/
  (isinstance_str v = false /\ isinstance_dict v = false) ->
  extract_text_from_obj v = Ok None
  /\ forall w : json, exists r, extract_text_from_obj w = Ok r.
Proof.
  intros Hv. split; [|apply extract_total].
  assert (Hn : Spec.matches_no_shape v).
  { destruct Hv as [Hn|[Hs Hd]]; [exact Hn|].
    by apply scalar_matches_no_shape. }
  destruct Hn as (H1 & H2 & H3 & H4 & H5).
  rewrite extract_refines. unfold Spec.extract.
  rewrite H1, H2, H3, H4, H5. reflexivity.
Qed.

Lemma extract_unmatched_is_none_witness :
  extract_text_from_obj
    (JObj [(py "model", JStr (py "llama3")); (py "done", JBool true);
           (py "message", JInt 5);
           (py "choices", JArr [JObj [(py "index", JInt 0)]])])
  = Ok None
  /\ extract_text_from_obj (JArr [JStr (py "a")]) = Ok None.
Proof.
  split.
  - apply extract_unmatched_is_none. left. vm_compute.
    repeat split; reflexivity.
  - apply extract_unmatched_is_none. right. split; reflexivity.
Defined.

(** ** The stream decoder *)

Section Decoder.
Context `{Host}.

Lemma chat_stream_loop_app (raws : list pybytes) (tail : list wire_item) :
  Forall DecoderSpec.decodes_or_is_refused raws ->
  exists fragments,
    chat_stream_loop (map Line raws ++ tail)
    = (fragments ++ (chat_stream_loop tail).1, (chat_stream_loop tail).2)
    /\ Forall2 DecoderSpec.emits
         (List.filter DecoderSpec.is_payload raws) fragments.
Proof.
  induction 1 as [|raw raws Hraw _ (fragments & E & IH)].
  - exists []. split; [|constructor].
    cbn [map app]. by destruct (chat_stream_loop tail).
  - destruct raw as [|b raw].
    + exists fragments. split; [exact E|exact IH].
    + cbn [map app chat_stream_loop List.filter DecoderSpec.is_payload].
      cbn [ensure_str]. rewrite E.
      unfold DecoderSpec.decodes_or_is_refused in Hraw.
      set (line := decode_utf8 (b :: raw)) in *.
      destruct (json_loads line) as [obj|exc] eqn:Hl.
      * rewrite (extract_refines obj). cbn [mbind result_bind].
        destruct (Spec.extract obj) as [text|] eqn:Hx;
          cbn [mret result_ret];
          [exists (text :: fragments)|exists (line :: fragments)];
          (split; [reflexivity|]); constructor; try exact IH.
        all: repeat split; fold line; intros; simplify_eq;
          first [congruence|rewrite extract_refines in *; congruence].
      * rewrite (Hraw exc eq_refl). cbn [mret result_ret].
        exists (line :: fragments).
        split; [reflexivity|]. constructor; [|exact IH].
        repeat split; fold line; intros; congruence.
Qed.

Lemma chat_stream_loop_lines (raws : list pybytes) :
  Forall DecoderSpec.decodes_or_is_refused raws ->
  exists fragments,
    chat_stream_loop (map Line raws) = (fragments, None)
    /\ Forall2 DecoderSpec.emits
         (List.filter DecoderSpec.is_payload raws) fragments.
Proof.
  intros Hraws.
  destruct (chat_stream_loop_app raws [] Hraws) as (fragments & E & Hf).
  exists fragments. split; [|exact Hf].
  rewrite !app_nil_r in E. exact E.
Qed.

Lemma chat_stream_loop_raises (raw : pybytes) (rest : list wire_item)
    (exc : exn) :
  DecoderSpec.is_payload raw = true ->
  json_loads (decode_utf8 raw) = Raise exc ->
  exc <> JSONDecodeError ->
  chat_stream_loop (Line raw :: rest) = ([], Some exc).
Proof.
  intros Hp Hl Hexc. destruct raw as [|b raw]; [discriminate|].
  cbn [chat_stream_loop ensure_str]. rewrite Hl.
  by destruct exc.
Qed.

(** Claim C5.  A non-empty line on which [json.loads] raises another
    exception than [JSONDecodeError] is not emitted: on a reply accepted
    by [raise_for_status], the lines before it emit their fragments, one
    per non-empty line, then [chat_stream] raises that exception, and
    neither the line nor anything after it is emitted. *)
Theorem chat_stream_stops_at_undecoded_line (status : Z)
    (before : list pybytes) (raw : pybytes) (after : list pybytes)
    (exc : exn) :
  raise_for_status status = Ok tt ->
  Forall DecoderSpec.decodes_or_is_refused before ->
  DecoderSpec.is_payload raw = true ->
  json_loads (decode_utf8 raw) = Raise exc ->
  exc <> JSONDecodeError ->
  exists fragments,
    chat_stream (Ok {| stream_status := status;
                       stream_lines := map Line (before ++ raw :: after) |})
    = (fragments, Some exc)
    /\ Forall2 DecoderSpec.emits
         (List.filter DecoderSpec.is_payload before) fragments.
Proof.
  intros Hs Hbefore Hp Hl Hexc. unfold chat_stream.
  cbn [stream_status stream_lines]. rewrite Hs, map_app. cbn [map].
  destruct (chat_stream_loop_app before (Line raw :: map Line after) Hbefore)
    as (fragments & E & Hf).
  exists fragments. split; [|exact Hf].
  rewrite E, (chat_stream_loop_raises _ _ _ Hp Hl Hexc). cbn [fst snd].
  by rewrite app_nil_r.
Qed.

End Decoder.

Lemma chat_stream_stops_at_undecoded_line_witness :
  chat_stream (H := Demo.host)
    (Ok {| stream_status := 200;
           stream_lines :=
             map Line ([Demo.quoted "Hel"; []; Demo.bytes_of "{oops"]
                       ++ Demo.ones 5000 :: [Demo.quoted "lo"]) |})
  = ([py "Hel"; py "{oops"], Some ValueError).
Proof.
  destruct (chat_stream_stops_at_undecoded_line (H := Demo.host) 200
              [Demo.quoted "Hel"; []; Demo.bytes_of "{oops"]
              (Demo.ones 5000) [Demo.quoted "lo"] ValueError)
    as (fragments & E & _).
  - reflexivity.
  - repeat constructor; intros exc; vm_compute; congruence.
  - reflexivity.
  - vm_compute. reflexivity.
  - discriminate.
  - rewrite E. vm_compute in E. injection E as <-. reflexivity.
Defined.

(** ** Model listing *)

Section Listing.
Context `{Host}.

Lemma model_names_of_valid (entries : list json) :
  Forall ListingSpec.valid_entry entries ->
  exists names,
    model_names_of entries = Ok names
    /\ update_list names = map ListingSpec.identifier entries.
Proof.
  induction 1 as [|m entries Hm _ (names & E & IH)].
  - by exists [].
  - cbn [model_names_of]. rewrite E.
    destruct m as [| | | | | |fields]; cbn [model_name isinstance_str
      isinstance_dict py_get mbind result_bind mret result_ret].
    all: eexists; split; [reflexivity|].
    all: cbn [update_list map]; fold (update_list names); rewrite IH.
    all: try reflexivity.
    destruct Hm as [n Hn]. cbn [ListingSpec.identifier]. rewrite Hn.
    reflexivity.
Qed.

(** Claim C9.  A plain array and a [{"tags": [...]}] wrapper around
    the same entries, whether these are strings, objects carrying a
    [name] field or other values, give the same normalised list: each
    entry is the plain string itself, or the object's [name] field, or
    otherwise its string representation. *)
Theorem listing_shapes_agree (plain wrapped : reply)
    (entries : list json) (fields : list (pystr * json)) :
  raise_for_status (status_code plain) = Ok tt ->
  raise_for_status (status_code wrapped) = Ok tt ->
  json_loads (body plain) = Ok (JArr entries) ->
  json_loads (body wrapped) = Ok (JObj fields) ->
  dict_lookup fields (py "tags") = Some (JArr entries) ->
  Forall ListingSpec.valid_entry entries ->
  refresh_models (Ok plain) = Ok (map ListingSpec.identifier entries)
  /\ refresh_models (Ok wrapped) = Ok (map ListingSpec.identifier entries).
Proof.
  intros Hp Hw Lp Lw Ht Hv.
  destruct (model_names_of_valid entries Hv) as (names & E & Hn).
  unfold refresh_models, list_models, reply_json.
  cbn [mbind result_bind]. rewrite Hp, Hw, Lp, Lw.
  cbn [mbind result_bind mret result_ret isinstance_dict isinstance_list
       py_contains py_getitem]. rewrite Ht.
  rewrite bool_decide_true by eauto.
  cbn [normalize_models mbind result_bind]. rewrite E.
  cbn [mbind result_bind mret result_ret]. by rewrite Hn.
Qed.

End Listing.

Example listing_under_another_key :
  refresh_models (H := Demo.host)
    (Ok {| status_code := 200; body := Demo.plain_listing |})
  = Ok [py "llama3"; py "phi"; py "3"]
  /\ normalize_models (H := Demo.host)
       (JObj [(py "count", JInt 3); (py "models", JArr Demo.entries)])
     = Ok [JStr (py "llama3"); JStr (py "phi"); JStr (py "3")].
Proof. vm_compute. split; reflexivity. Qed.

Lemma listing_shapes_agree_witness :
  refresh_models (H := Demo.host)
    (Ok {| status_code := 200; body := Demo.plain_listing |})
  = Ok [py "llama3"; py "phi"; py "3"]
  /\ refresh_models (H := Demo.host)
       (Ok {| status_code := 200; body := Demo.wrapped_listing |})
     = Ok [py "llama3"; py "phi"; py "3"].
Proof.
  apply (listing_shapes_agree (H := Demo.host)
           {| status_code := 200; body := Demo.plain_listing |}
           {| status_code := 200; body := Demo.wrapped_listing |}
           Demo.entries [(py "tags", JArr Demo.entries)]).
  - reflexivity.
  - reflexivity.
  - vm_compute. reflexivity.
  - vm_compute. reflexivity.
  - vm_compute. reflexivity.
  - repeat constructor. by exists (py "phi").
Defined.

(** ** Blob upload *)

Section Upload.
Context `{Host}.
Context {S : Type} (send : request -> S -> result Z * S).

(** Claim C10.  For a file holding [data], the identifier returned by
    [upload_blob] is ["sha256:"] followed by the hexadecimal SHA-256
    digest of exactly these bytes, so two uploads of the same bytes,
    also against a server changed by the first, return the same
    identifier.  The first request is a PUT of the bytes to the blob's
    path; when its status is outside {200, 201} exactly one more
    request follows, a POST of the same bytes to the same path, whose
    status decides between success and failure; otherwise nothing
    follows. *)
Theorem upload_blob_identifier_and_retry
    (base_url file_path : pystr) (data : pybytes) (srv : S) :
  read_file file_path = Some data ->
  let digest := py "sha256:" ++ sha256_hexdigest data in
  let url := base_url ++ py "/api/blobs/" ++ digest in
  let put := {| req_method := PUT; req_url := url; req_data := data;
                req_content_type := py "application/octet-stream" |} in
  let post := {| req_method := POST; req_url := url; req_data := data;
                 req_content_type := py "application/octet-stream" |} in
  let '(res1, sent1, srv1) := upload_blob send base_url file_path srv in
  let '(res2, sent2, _) := upload_blob send base_url file_path srv1 in
  (forall d1 d2, res1 = Ok d1 -> res2 = Ok d2 -> d1 = digest /\ d2 = d1)
  /\ match send put srv with
     | (Ok status, srv') =>
         if accepted status
         then sent1 = [put] /\ res1 = Ok digest
         else sent1 = [put; post]
              /\ match send post srv' with
                 | (Ok status2, _) =>
                     res1 = (_ ← raise_for_status status2; mret digest)
                 | (Raise e, _) => res1 = Raise e
                 end
     | (Raise e, _) => sent1 = [put] /\ res1 = Raise e
     end.
Proof.
  intros Hf digest url put post.
  assert (Hid : forall srv0 res sent srv',
    upload_blob send base_url file_path srv0 = (res, sent, srv') ->
    forall d, res = Ok d -> d = digest).
  { intros srv0 res sent srv' E d ->. unfold upload_blob in E.
    rewrite Hf in E. fold digest url put post in E.
    destruct (send put srv0) as [[status|e] s1]; [|by simplify_eq].
    destruct (accepted status); cbn [negb] in E.
    - destruct (raise_for_status status);
        unfold mret, result_ret in E; simpl in E; congruence.
    - destruct (send post s1) as [[status2|e] s2]; [|by simplify_eq].
      destruct (raise_for_status status2);
        unfold mret, result_ret in E; simpl in E; congruence. }
  destruct (upload_blob send base_url file_path srv)
    as [[res1 sent1] srv1] eqn:E1.
  destruct (upload_blob send base_url file_path srv1)
    as [[res2 sent2] srv2] eqn:E2.
  split.
  - intros d1 d2 H1 H2.
    rewrite (Hid _ _ _ _ E1 d1 H1), (Hid _ _ _ _ E2 d2 H2). by split.
  - unfold upload_blob in E1. rewrite Hf in E1.
    fold digest url put post in E1.
    destruct (send put srv) as [[status|e] s1]; [|by simplify_eq].
    destruct (accepted status) eqn:Ha; cbn [negb] in E1.
    + simplify_eq. split; [reflexivity|].
      unfold accepted in Ha. unfold raise_for_status.
      destruct (status =? 200)%Z eqn:E200; [apply Z.eqb_eq in E200; by subst|].
      destruct (status =? 201)%Z eqn:E201; [apply Z.eqb_eq in E201; by subst|].
      discriminate.
    + destruct (send post s1) as [[status2|e] s2]; by simplify_eq.
Qed.

End Upload.

Lemma upload_blob_identifier_and_retry_witness :
  let url := py "http://localhost:11434/api/blobs/sha256:PNG" in
  let ctype := py "application/octet-stream" in
  let up := upload_blob (H := Demo.host) Demo.blob_server
              (py "http://localhost:11434") (py "cat.png") 0 in
  up.1.2 = [ {| req_method := PUT; req_url := url;
                req_data := Demo.bytes_of "PNG";
                req_content_type := ctype |};
             {| req_method := POST; req_url := url;
                req_data := Demo.bytes_of "PNG";
                req_content_type := ctype |} ]
  /\ up.1.1 = Ok (py "sha256:PNG").
Proof.
  pose proof (upload_blob_identifier_and_retry (H := Demo.host)
                Demo.blob_server (py "http://localhost:11434")
                (py "cat.png") (Demo.bytes_of "PNG") 0 eq_refl) as W.
  vm_compute in W. destruct W as [_ [Hsent Hres]].
  vm_compute. split; [exact Hsent|exact Hres].
Defined.

(** ** Sending: control tokens and the run gate *)

Section Sending.
Context `{Host}.

Lemma pystr_eqb_eq (x y : pystr) : pystr_eqb x y = true <-> x = y.
Proof. unfold pystr_eqb. apply bool_decide_eq_true. Qed.

Lemma is_token_cases (t : pystr) :
  is_token t = true ->
  t = CLEAR_TOKEN \/ t = START_TOKEN \/ t = STOP_TOKEN.
Proof.
  unfold is_token. rewrite !orb_true_iff, !pystr_eqb_eq. tauto.
Qed.

Lemma turns_for_insert (h : gmap pystr (list entry)) (m k : pystr)
    (l : list entry) :
  turns_for (<[m := l]> h) k = if decide (m = k) then l else turns_for h k.
Proof. unfold turns_for. rewrite lookup_insert. by case_decide. Qed.

(** Claim C6.  With a model selected and no image attached, a send
    whose composed input is exactly one of the three control tokens is
    intercepted: no stream is started, no model's history gains a
    turn, clear empties the history widget and the active model's
    turns and leaves every other model's turns alone, start leaves
    [model_running] true and stop leaves it false, and a start while
    running or a stop while stopped changes nothing but the input
    box, which every interception empties. *)
Theorem control_token_intercepted (a : ChatApp) (c : N) (m : pystr) :
  current_model a = Some (c :: m) ->
  is_set (attached_image_path a) = false ->
  is_token (strip (input_box a)) = true ->
  let token := strip (input_box a) in
  let a' := (on_send a).1 in
  spawn (on_send a).2 = []
  /\ (forall k, turns_for (histories a') k = turns_for (histories a) k
               \/ turns_for (histories a') k = [])
  /\ (token = CLEAR_TOKEN ->
        history a' = []
        /\ turns_for (histories a') (c :: m) = []
        /\ (forall k, k <> c :: m ->
                      turns_for (histories a') k = turns_for (histories a) k)
        /\ model_running a' = model_running a)
  /\ (token = START_TOKEN ->
        model_running a' = true /\ histories a' = histories a
        /\ (model_running a = true -> a' = set_input_box a []))
  /\ (token = STOP_TOKEN ->
        model_running a' = false /\ histories a' = histories a
        /\ (model_running a = false -> a' = set_input_box a [])).
Proof.
  intros Hm Hi Ht token a'. subst a'. unfold on_send. rewrite Hm, Hi.
  fold token in Ht |- *. rewrite Ht.
  assert (Hne : nonempty token = true).
  { destruct (is_token_cases _ Ht) as [->|[->| ->]]; reflexivity. }
  rewrite Hne. cbn [negb andb].
  unfold handle_special_token. rewrite Hm.
  destruct (is_token_cases _ Ht) as [E|[E|E]]; rewrite E.
  - change (pystr_eqb CLEAR_TOKEN CLEAR_TOKEN) with true. cbv iota.
    set (a1 := if bool_decide (is_Some (histories (set_history a [])
                                         !! (c :: m)))
               then _ else _).
    assert (Hc : history a1 = [] /\ model_running a1 = model_running a
                 /\ turns_for (histories a1) (c :: m) = []
                 /\ forall k, k <> c :: m ->
                      turns_for (histories a1) k
                      = turns_for (histories a) k).
    { subst a1. case_bool_decide as Hin;
        cbn [set_history set_histories histories history model_running]
          in Hin |- *.
      - repeat split.
        + rewrite turns_for_insert. by case_decide.
        + intros k Hk. rewrite turns_for_insert. by case_decide.
      - repeat split. unfold turns_for.
        destruct (histories a !! (c :: m)) eqn:El; [|reflexivity].
        exfalso. apply Hin. eauto. }
    destruct Hc as (Hc1 & Hc2 & Hc3 & Hc4).
    cbn [fst snd spawn set_input_box histories history model_running].
    split; [reflexivity|]. split.
    { intros k. destruct (decide (k = c :: m)) as [->|Hk]; auto. }
    split; [auto|]. split; intros E'; discriminate E'.
  - change (pystr_eqb START_TOKEN CLEAR_TOKEN) with false.
    change (pystr_eqb START_TOKEN START_TOKEN) with true. cbv iota.
    destruct (model_running a) eqn:Hr;
      cbn [fst snd spawn set_input_box set_model_running histories
           model_running];
      repeat split; auto; try discriminate.
  - change (pystr_eqb STOP_TOKEN CLEAR_TOKEN) with false.
    change (pystr_eqb STOP_TOKEN START_TOKEN) with false.
    change (pystr_eqb STOP_TOKEN STOP_TOKEN) with true. cbv iota.
    destruct (model_running a) eqn:Hr;
      cbn [negb fst snd spawn set_input_box set_model_running histories
           model_running];
      repeat split; auto; try discriminate.
Qed.

(** Claim C7.  While [model_running] is false, a send that is not an
    intercepted control token is rejected: one warning is shown, no
    stream is started, and the application state, histories included,
    is left exactly as it was. *)
Theorem send_while_stopped_rejected (a : ChatApp) :
  model_running a = false ->
  is_token (strip (input_box a))
    && negb (is_set (attached_image_path a)) = false ->
  (exists title text, on_send a = (a, [ShowWarning title text]))
  /\ spawn (on_send a).2 = [].
Proof.
  intros Hr Hc. unfold on_send. rewrite Hc, Hr. cbn [negb].
  destruct (current_model a) as [[|c m]|];
    try (split; [eauto|reflexivity]).
  destruct (negb (nonempty (strip (input_box a)))
            && negb (is_set (attached_image_path a)));
    (split; [eauto|reflexivity]).
Qed.

End Sending.

Lemma control_token_intercepted_witness :
  let a := Demo.stopped (py " " ++ START_TOKEN ++ NL) in
  let a' := (on_send (H := Demo.host) a).1 in
  spawn (H := Demo.host) (on_send (H := Demo.host) a).2 = []
  /\ model_running a' = true
  /\ histories a' = histories a.
Proof.
  intros a a'.
  destruct (control_token_intercepted (H := Demo.host) a 109%N (py "1"))
    as (W1 & _ & _ & W4 & _).
  - reflexivity.
  - reflexivity.
  - vm_compute. reflexivity.
  - split; [exact W1|].
    destruct W4 as (R & Hh & _); [vm_compute; reflexivity|].
    split; [exact R|exact Hh].
Defined.

Lemma send_while_stopped_rejected_witness :
  let a := Demo.stopped (py "are you there?") in
  (exists title text,
     on_send (H := Demo.host) a = (a, [ShowWarning title text]))
  /\ spawn (H := Demo.host) (on_send (H := Demo.host) a).2 = [].
Proof.
  intros a.
  apply (send_while_stopped_rejected (H := Demo.host) a).
  - reflexivity.
  - vm_compute. reflexivity.
Defined.

Example clear_resets_active_model_only :
  let a := set_histories (Demo.stopped CLEAR_TOKEN)
             (<[py "m2" := [EUser (py "yo")]]>
                (histories (Demo.stopped CLEAR_TOKEN))) in
  let a' := (on_send (H := Demo.host) a).1 in
  turns_for (histories a') (py "m1") = []
  /\ turns_for (histories a') (py "m2") = [EUser (py "yo")]
  /\ history a' = [] /\ input_box a' = [].
Proof. vm_compute. repeat split; reflexivity. Qed.

(** ** Streaming *)

Section Stream.
Context `{Host}.
Variable a0 : ChatApp.
Variable fragments : list pystr.
Variable ending : option exn.

Local Abbreviation cbs := (callbacks fragments ending).
Local Abbreviation inv := (stream_inv a0 fragments ending).
Local Abbreviation upd := (updates_in fragments).

Lemma callbacks_length :
  length cbs
  = S (length fragments) + match ending with Some _ => 1 | None => 0 end.
Proof.
  unfold callbacks. cbn [length].
  rewrite length_app, length_map, length_seq. by destruct ending.
Qed.

Lemma callbacks_update (j : nat) :
  j < length fragments ->
  cbs !! S j = Some (UpdateBlock (concat (take (S j) fragments))).
Proof.
  intros Hj. unfold callbacks.
  change ((Placeholder :: ?l) !! S j) with (l !! j).
  rewrite lookup_app_l by (by rewrite length_map, length_seq).
  rewrite list_lookup_fmap, lookup_seq_lt by done. reflexivity.
Qed.

Lemma callbacks_failed :
  cbs !! S (length fragments) = ChatFailed <$> ending.
Proof.
  unfold callbacks.
  change ((Placeholder :: ?l) !! S ?j) with (l !! j).
  rewrite lookup_app_r by (by rewrite length_map, length_seq).
  rewrite length_map, length_seq, Nat.sub_diag. by destruct ending.
Qed.

Lemma queue_push (k m : nat) (cb : callback) :
  k <= m -> cbs !! m = Some cb ->
  drop k (take m cbs) ++ [cb] = drop k (take (S m) cbs).
Proof.
  intros Hk Hm. rewrite (take_S_r _ _ _ Hm).
  rewrite drop_app_le; [done|].
  rewrite length_take_le; [done|].
  apply lookup_lt_Some in Hm. lia.
Qed.

Lemma queue_pop (k m : nat) (cb : callback) (q : list callback) :
  drop k (take m cbs) = cb :: q ->
  cbs !! k = Some cb /\ k < m
  /\ q = drop (S k) (take m cbs).
Proof.
  intros E.
  assert (Hl : take m cbs !! k = Some cb).
  { pose proof (lookup_drop (take m cbs) k 0) as L.
    rewrite E, Nat.add_0_r in L. by rewrite <- L. }
  pose proof (drop_S _ _ _ Hl) as D. rewrite E in D.
  apply lookup_take_Some in Hl as [Hl Hlt].
  repeat split; [done|done|congruence].
Qed.

Lemma commit_final_histories (acc : pystr) (a b : ChatApp) :
  current_model a = current_model b -> histories a = histories b ->
  histories (commit_final acc a) = histories (commit_final acc b).
Proof.
  intros Hc Hh. unfold commit_final. rewrite Hc.
  destruct (current_model b) as [m|]; [|exact Hh].
  destruct (nonempty (strip acc) && nonempty m);
    cbn [set_histories histories]; by rewrite ?Hh.
Qed.

Lemma commit_final_keeps (acc : pystr) (a : ChatApp) :
  history (commit_final acc a) = history a
  /\ last_assistant_index (commit_final acc a) = last_assistant_index a
  /\ current_model (commit_final acc a) = current_model a.
Proof.
  unfold commit_final. destruct (current_model a) as [m|] eqn:E; [|done].
  by destruct (nonempty (strip acc) && nonempty m).
Qed.

(** A step of the worker keeps the invariant and runs no callback. *)
Lemma inv_work (s : list worker * world) (k i : nat) :
  inv s k -> inv (step (Work i) s) k.
Proof.
  destruct s as [ws σ].
  intros (w & m & Hws & Hp & Hk & Hq & Hh & Hi & Hc & Hhs).
  cbn [fst snd] in *. subst ws.
  destruct i as [|i]; [|by exists w, m].
  cbn [step lookup list_lookup].
  destruct w as [model stream|model acc [[|chunk rest] [exc|]]|];
    cbn [_stream_response_step progress is_finished] in *.
  - destruct Hp as [-> ->].
    exists (Streaming model [] (fragments, ending)), 1.
    cbn [fst snd after gui queue progress is_finished].
    repeat split; try done; [by exists []|lia|].
    rewrite Hq. by apply queue_push.
  - destruct Hp as (He & seen & Hf & Ha & ->).
    exists Finished, (S (S (length seen))).
    rewrite app_nil_r in Hf. subst seen.
    cbn [fst snd after gui queue progress is_finished].
    repeat split; try done.
    + rewrite callbacks_length, <- He. lia.
    + lia.
    + rewrite Hq. apply queue_push; [done|].
      by rewrite callbacks_failed, <- He.
    + by rewrite Hhs; unfold histories_after; rewrite <- He.
  - destruct Hp as (He & seen & Hf & Ha & ->).
    exists Finished, (S (length seen)).
    rewrite app_nil_r in Hf. subst seen.
    destruct (commit_final_keeps acc (gui σ)) as (K1 & K2 & K3).
    cbn [fst snd with_gui gui queue progress is_finished].
    repeat split; try done.
    + rewrite callbacks_length, <- He. lia.
    + congruence.
    + congruence.
    + congruence.
    + unfold histories_after. rewrite <- He, Ha.
      by apply commit_final_histories.
  - destruct Hp as (He & seen & Hf & Ha & ->).
    exists (Streaming model (acc ++ chunk) (rest, Some exc)),
           (S (S (length seen))).
    cbn [fst snd after gui queue progress is_finished ensure_str].
    assert (Ht : take (S (length seen)) fragments = seen ++ [chunk]).
    { rewrite Hf, <- Nat.add_1_r. by rewrite take_app_add. }
    repeat split; try done.
    + exists (seen ++ [chunk]). rewrite <- app_assoc. cbn [app].
      rewrite Ha, concat_app, length_app. cbn [concat length].
      rewrite app_nil_r. repeat split; [done|lia].
    + lia.
    + rewrite Hq, Ha. apply queue_push; [done|].
      rewrite callbacks_update.
      * by rewrite Ht, concat_app; cbn [concat]; rewrite app_nil_r.
      * rewrite Hf, length_app. cbn [length]. lia.
  - destruct Hp as (He & seen & Hf & Ha & ->).
    exists (Streaming model (acc ++ chunk) (rest, None)),
           (S (S (length seen))).
    cbn [fst snd after gui queue progress is_finished ensure_str].
    assert (Ht : take (S (length seen)) fragments = seen ++ [chunk]).
    { rewrite Hf, <- Nat.add_1_r. by rewrite take_app_add. }
    repeat split; try done.
    + exists (seen ++ [chunk]). rewrite <- app_assoc. cbn [app].
      rewrite Ha, concat_app, length_app. cbn [concat length].
      rewrite app_nil_r. repeat split; [done|lia].
    + lia.
    + rewrite Hq, Ha. apply queue_push; [done|].
      rewrite callbacks_update.
      * by rewrite Ht, concat_app; cbn [concat]; rewrite app_nil_r.
      * rewrite Hf, length_app. cbn [length]. lia.
  - by exists Finished, m.
Qed.

Lemma history_after_is_block (k : nat) :
  exists text,
    history_after a0 fragments (S k) = block_after a0 (upd (S k)) text.
Proof.
  cbn [history_after]. destruct (upd (S k)); eexists; reflexivity.
Qed.

(** Cutting a block off where it began leaves what stood before it,
    less the line feed this ended in. *)
Lemma textbox_delete_from_block (w x : textbox) :
  textbox_delete_from (w ++ x) (length w) = without_last_newline w.
Proof.
  destruct w as [|a w _] using rev_ind; [reflexivity|].
  rewrite length_app. cbn [length]. rewrite Nat.add_1_r.
  cbn [textbox_delete_from]. unfold without_last_newline.
  rewrite rev_unit, <- app_assoc.
  rewrite (lookup_app_r w) by lia. rewrite Nat.sub_diag.
  cbn [app lookup list_lookup].
  assert (Hall : take (S (length w)) (w ++ a :: x) = w ++ [a]).
  { change (a :: x) with ([a] ++ x). rewrite app_assoc.
    replace (S (length w)) with (length (w ++ [a]))
      by (rewrite length_app; cbn [length]; lia).
    apply take_app_length. }
  destruct a as [c|]; [|exact Hall].
  destruct (N.eqb c 10); [|exact Hall].
  by rewrite take_app_length, rev_involutive.
Qed.

Lemma append_assistant_placeholder (text : pystr) (a : ChatApp) :
  let a' := append_assistant text true false a in
  history a' = history a
               ++ map Ch (separator (history a) ++ py "Assistant: "
                          ++ text ++ NL)
  /\ last_assistant_index a' = Some (length (history a))
  /\ current_model a' = current_model a
  /\ histories a' = histories a.
Proof.
  unfold append_assistant. cbn [negb andb].
  replace (match current_model a with
           | Some m => if nonempty m && false then _ else a
           | None => a
           end) with a.
  - done.
  - destruct (current_model a) as [m|]; [|done].
    by rewrite andb_false_r.
Qed.

Lemma update_block_indexed (acc_text : pystr) (a : ChatApp) (i : nat) :
  last_assistant_index a = Some i ->
  let kept := textbox_delete_from (history a) i in
  let a' := update_block acc_text a in
  history a' = kept ++ map Ch (separator kept ++ py "Assistant: "
                               ++ acc_text ++ NL)
  /\ last_assistant_index a' = Some (length kept)
  /\ current_model a' = current_model a
  /\ histories a' = histories a.
Proof. intros Hi. unfold update_block. rewrite Hi. done. Qed.

(** The main loop running the callback at the head of its queue keeps
    the invariant, one callback further. *)
Lemma inv_idle (s : list worker * world) (k : nat) :
  inv s k ->
  exists k',
    inv (step Idle s) k'
    /\ upd k' = upd k + match queue s.2 with
                        | UpdateBlock _ :: _ => 1
                        | _ => 0
                        end.
Proof.
  destruct s as [ws σ].
  intros (w & m & Hws & Hp & Hk & Hq & Hh & Hi & Hc & Hhs).
  cbn [fst snd step] in *.
  destruct (queue σ) as [|cb q] eqn:Eq.
  { exists k. split; [|lia]. exists w, m. cbn [fst snd].
    repeat split; try done. congruence. }
  symmetry in Hq. apply queue_pop in Hq as (Hcb & Hkm & Hq').
  assert (Hlen : k < length cbs) by by apply lookup_lt_Some in Hcb.
  rewrite callbacks_length in Hlen.
  exists (S k).
  destruct k as [|j].
  - (* the placeholder *)
    cbn in Hcb. injection Hcb as <-.
    cbn [run_callback with_gui gui queue].
    destruct (append_assistant_placeholder (py "...") (gui σ))
      as (P1 & P2 & P3 & P4).
    split; [|unfold updates_in; lia].
    exists w, m. cbn [fst snd with_gui show gui queue].
    repeat split; try done.
    + rewrite P1, Hh. reflexivity.
    + rewrite P2, Hh. reflexivity.
    + congruence.
    + congruence.
  - destruct (decide (j < length fragments)) as [Hj|Hj].
    + (* an update *)
      rewrite (callbacks_update j Hj) in Hcb. injection Hcb as <-.
      cbn [run_callback with_gui gui queue].
      assert (Hj1 : upd (S j) = j) by (unfold updates_in; lia).
      assert (Hj2 : upd (S (S j)) = S j) by (unfold updates_in; lia).
      destruct (history_after_is_block j) as [old Hold].
      rewrite Hj1 in Hold. cbn [index_after] in Hi. rewrite Hj1 in Hi.
      destruct (update_block_indexed (concat (take (S j) fragments))
                  (gui σ) _ Hi) as (U1 & U2 & U3 & U4).
      rewrite Hh, Hold in U1, U2. unfold block_after in U1, U2.
      rewrite !textbox_delete_from_block in U1, U2.
      split; [|lia].
      exists w, m. cbn [fst snd with_gui gui queue].
      repeat split; try done.
      * rewrite U1. cbn [history_after]. rewrite Hj2. reflexivity.
      * rewrite U2. cbn [index_after]. rewrite Hj2. reflexivity.
    + (* the failure dialog *)
      assert (j = length fragments) as -> by (destruct ending; lia).
      rewrite callbacks_failed in Hcb.
      destruct ending as [exc|]; [|discriminate]. injection Hcb as <-.
      cbn [run_callback show gui queue].
      split; [|unfold updates_in; lia].
      exists w, m. cbn [fst snd with_gui show gui queue].
      assert (Hu : upd (S (S (length fragments)))
                   = upd (S (length fragments)))
        by (unfold updates_in; lia).
      repeat split; try done.
      * rewrite Hh. cbn [history_after]. by rewrite Hu.
      * rewrite Hi. cbn [index_after]. by rewrite Hu.
Qed.

Lemma inv_start (model : pystr) (sh : list effect) :
  inv ([Starting model (fragments, ending)],
       {| gui := a0; queue := []; shown := sh |}) 0.
Proof.
  exists (Starting model (fragments, ending)), 0.
  cbn [fst snd gui queue progress is_finished]. by repeat split.
Qed.

(** Any interleaving of worker steps and main loop turns keeps the
    invariant; the updates run add up. *)
Lemma inv_run (acts : list action) :
  forall (s : list worker * world) (k : nat),
    inv s k -> forallb stream_action acts = true ->
    exists k',
      inv (run acts s) k' /\ upd k' = upd k + updates_applied acts s.
Proof.
  induction acts as [|act acts IH]; intros s k Hs Ha.
  - exists k. split; [exact Hs|]. cbn [updates_applied]. lia.
  - cbn [forallb] in Ha. apply andb_true_iff in Ha as [Hact Hacts].
    destruct act; try discriminate Hact.
    + destruct (IH _ _ (inv_work s k i Hs) Hacts) as (k' & Hk' & Hu).
      exists k'. split; [exact Hk'|exact Hu].
    + destruct (inv_idle s k Hs) as (k1 & Hk1 & Hu1).
      destruct (IH _ _ Hk1 Hacts) as (k' & Hk' & Hu).
      exists k'. split; [exact Hk'|].
      cbn [updates_applied]. rewrite Hu, Hu1.
      destruct (queue s.2) as [|[] ?]; lia.
Qed.

Lemma upd_bound (k : nat) : upd k <= length fragments.
Proof. unfold updates_in. lia. Qed.

(** Claim C1.  While one reply is streamed and the user leaves the
    application alone, under any interleaving of the worker thread and
    the main loop: once the main loop has applied the updates of the
    first [j] fragments, [j] at least one, the assistant block shown at
    the end of the history widget holds exactly the concatenation of
    these [j] fragments in arrival order, after what the [j] updates
    have left of the text that stood before the block; before the first
    update the widget is as it was or shows the ["..."] placeholder.  No
    more updates are applied than fragments were delivered. *)
Theorem displayed_text_is_concatenation (model : pystr)
    (acts : list action) :
  forallb stream_action acts = true ->
  let s0 := ([Starting model (fragments, ending)],
             {| gui := a0; queue := []; shown := [] |}) in
  let j := updates_applied acts s0 in
  let displayed := history (gui (run acts s0).2) in
  j <= length fragments
  /\ (0 < j -> displayed = block_after a0 j (concat (take j fragments)))
  /\ (j = 0 -> displayed = history a0 \/ displayed = block a0 (py "...")).
Proof.
  intros Ha s0 j displayed.
  destruct (inv_run acts s0 0 (inv_start model []) Ha) as (k & Hk & Hu).
  change (upd 0) with 0 in Hu. cbn [Nat.add] in Hu. fold j in Hu.
  destruct Hk as (w & m & _ & _ & _ & _ & Hh & _).
  fold displayed in Hh.
  split; [rewrite <- Hu; apply upd_bound|].
  destruct k as [|k]; cbn [history_after] in Hh.
  - change (upd 0) with 0 in Hu. split; [lia|auto].
  - rewrite Hu in Hh. destruct j as [|j']; split; try lia; auto.
Qed.

Lemma run_work_finishes (rest : list pystr) :
  forall (model acc : pystr) (e : option exn) (σ : world),
    (run (replicate (S (length rest)) (Work 0))
         ([Streaming model acc (rest, e)], σ)).1 = [Finished].
Proof.
  induction rest as [|chunk rest IH]; intros model acc e σ.
  - by destruct e.
  - cbn [length replicate run foldl step lookup list_lookup _stream_response_step].
    apply IH.
Qed.

(** Claim C2, as the code has it.  For a stream begun for the model that
    is still the active one, under any interleaving of the worker thread
    and the main loop: until the worker has returned the histories are
    untouched; when the stream ends without error exactly one Assistant
    turn, holding the concatenation of all fragments with leading and
    trailing whitespace stripped, is appended to that model's history,
    provided this stripped text is not empty; when the stream ends in an
    error the histories are left as they were.  The worker returns after
    one step per fragment and two more. *)
Theorem commit_at_stream_end (model : pystr) (acts : list action) :
  forallb stream_action acts = true ->
  current_model a0 = Some model ->
  nonempty model = true ->
  let s0 := ([Starting model (fragments, ending)],
             {| gui := a0; queue := []; shown := [] |}) in
  let s := run acts s0 in
  let final_text := strip (concat fragments) in
  (s.1 <> [Finished] -> histories (gui s.2) = histories a0)
  /\ (s.1 = [Finished] ->
      histories (gui s.2)
      = match ending with
        | None =>
            if nonempty final_text
            then record_entry (histories a0) model (EAssistant final_text)
            else histories a0
        | Some _ => histories a0
        end)
  /\ (run (replicate (length fragments + 2) (Work 0)) s0).1 = [Finished].
Proof.
  intros Ha Hm Hne s0 s final_text.
  destruct (inv_run acts s0 0 (inv_start model []) Ha) as (k & Hk & _).
  fold s in Hk.
  destruct Hk as (w & m & Hw & _ & _ & _ & _ & _ & _ & Hh).
  repeat split.
  - intros Hnf. rewrite Hh. by destruct w.
  - intros Hf. rewrite Hh. rewrite Hw in Hf. injection Hf as ->.
    cbn [is_finished]. unfold histories_after, commit_final.
    rewrite Hm, Hne, andb_true_r. fold final_text.
    destruct ending; [done|]. by destruct (nonempty final_text).
  - rewrite Nat.add_comm. cbn [Nat.add replicate run foldl].
    apply run_work_finishes.
Qed.

End Stream.

Lemma displayed_text_is_concatenation_witness :
  let fragments := [py "Hel"; py "lo, "; py "world"] in
  let s0 := ([Starting (py "m1") (fragments, None)],
             {| gui := Demo.sent; queue := []; shown := [] |}) in
  let acts := [Work 0; Work 0; Idle; Work 0; Idle; Idle; Work 0] in
  textbox_get (history (gui (run (H := Demo.host) acts s0).2))
  = py "User: hi" ++ NL ++ NL ++ py "Assistant: Hello, " ++ NL.
Proof.
  cbv zeta.
  pose proof (displayed_text_is_concatenation (H := Demo.host) Demo.sent
                [py "Hel"; py "lo, "; py "world"] None (py "m1")
                [Work 0; Work 0; Idle; Work 0; Idle; Idle; Work 0]
                eq_refl) as W.
  cbv zeta in W. destruct W as (_ & W & _).
  rewrite W by (vm_compute; lia). vm_compute. reflexivity.
Defined.

Example hello_world_passes_through :
  let fragments := [py "Hel"; py "lo, "; py "world"] in
  let s0 := ([Starting (py "m1") (fragments, None)],
             {| gui := Demo.sent; queue := []; shown := [] |}) in
  let shown_after acts :=
    textbox_get (history (gui (run (H := Demo.host) acts s0).2)) in
  let turn := [Work 0; Idle] in
  shown_after [] = py "User: hi" ++ NL
  /\ shown_after turn
     = py "User: hi" ++ NL ++ NL ++ NL ++ py "Assistant: ..." ++ NL
  /\ shown_after (turn ++ turn)
     = py "User: hi" ++ NL ++ NL ++ py "Assistant: Hel" ++ NL
  /\ shown_after (turn ++ turn ++ turn)
     = py "User: hi" ++ NL ++ NL ++ py "Assistant: Hello, " ++ NL
  /\ shown_after (turn ++ turn ++ turn ++ turn)
     = py "User: hi" ++ NL ++ NL ++ py "Assistant: Hello, world" ++ NL
  /\ shown_after (turn ++ turn ++ turn ++ turn ++ turn)
     = py "User: hi" ++ NL ++ NL ++ py "Assistant: Hello, world" ++ NL.
Proof. vm_compute. repeat split; reflexivity. Qed.

(** The same stream into an empty widget, where nothing stands before
    the block and no line feed is taken along. *)
Example hello_world_in_empty_widget :
  let fragments := [py "Hel"; py "lo, "; py "world"] in
  let s0 := ([Starting (py "m1") (fragments, None)],
             {| gui := Demo.listed; queue := []; shown := [] |}) in
  let shown_after acts :=
    textbox_get (history (gui (run (H := Demo.host) acts s0).2)) in
  let turn := [Work 0; Idle] in
  shown_after turn = py "Assistant: ..." ++ NL
  /\ shown_after (turn ++ turn) = py "Assistant: Hel" ++ NL
  /\ shown_after (turn ++ turn ++ turn ++ turn)
     = py "Assistant: Hello, world" ++ NL.
Proof. vm_compute. repeat split; reflexivity. Qed.

Lemma commit_at_stream_end_witness :
  let s0 := ([Starting (py "m1") ([py "He"; py "llo!"; NL], None)],
             {| gui := Demo.listed; queue := []; shown := [] |}) in
  let acts := [Work 0; Idle; Work 0; Work 0; Idle; Work 0; Work 0] in
  turns_for (histories (gui (run (H := Demo.host) acts s0).2)) (py "m1")
  = [EAssistant (py "Hello!")].
Proof.
  cbv zeta.
  pose proof (commit_at_stream_end (H := Demo.host) Demo.listed
                [py "He"; py "llo!"; NL] None (py "m1")
                [Work 0; Idle; Work 0; Work 0; Idle; Work 0; Work 0]
                eq_refl eq_refl eq_refl) as W.
  cbv zeta in W. destruct W as (_ & W & _).
  rewrite W by (vm_compute; reflexivity). vm_compute. reflexivity.
Defined.

(** The claim C2 as the specification words it fails on the code: a
    stream that ends without error with a non-empty accumulated text
    made of whitespace commits nothing, and a committed text is the
    accumulated text stripped, not the accumulated text. *)
Lemma commit_strips_counterexample :
  let run_on fragments :=
    run (H := Demo.host) (replicate (length fragments + 2) (Work 0))
        ([Starting (py "m1") (fragments, None)],
         {| gui := Demo.listed; queue := []; shown := [] |}) in
  ((run_on [py " "]).1 = [Finished]
   /\ concat [py " "] <> []
   /\ histories (gui (run_on [py " "]).2) = histories Demo.listed)
  /\ ((run_on [py "Hello "; NL]).1 = [Finished]
      /\ turns_for (histories (gui (run_on [py "Hello "; NL]).2)) (py "m1")
         = [EAssistant (py "Hello")]
      /\ concat [py "Hello "; NL] <> py "Hello").
Proof. vm_compute. repeat split; try reflexivity; discriminate. Qed.

(** ** Histories and the active model *)

Section Histories.
Context `{Host}.

Lemma show_entry_keeps_histories (e : entry) (a : ChatApp) :
  histories (show_entry e a) = histories a.
Proof.
  destruct e as [text|text|path caption]; try reflexivity.
  unfold show_entry.
  destruct (PIL_AVAILABLE && nonempty path); [|reflexivity].
  destruct (image_opens path); [|reflexivity].
  unfold append_image. destruct (negb PIL_AVAILABLE); [reflexivity|].
  cbn [set_history current_model attached_image_path].
  destruct (current_model a) as [m|]; [|reflexivity].
  destruct (attached_image_path a) as [p|]; [|reflexivity].
  by rewrite andb_false_r.
Qed.

Lemma show_entries_keep_histories (entries : list entry) (a : ChatApp) :
  histories (foldl (fun acc e => show_entry e acc) a entries) = histories a.
Proof.
  revert a. induction entries as [|e entries IH]; intros a; [done|].
  cbn [foldl]. by rewrite IH, show_entry_keeps_histories.
Qed.

(** Selecting a model rewrites the history widget from the stored
    turns and stores nothing: every model's turns stay as they were. *)
Lemma on_model_select_keeps_histories (sel : option nat) (a : ChatApp) :
  histories (on_model_select sel a) = histories a.
Proof.
  destruct sel as [i|]; [|reflexivity]. unfold on_model_select.
  cbn [set_last_assistant_index histories].
  by rewrite show_entries_keep_histories.
Qed.

(** The end of the stream appends to the history of whichever model is
    selected at that moment. *)
Lemma commit_final_targets_selected (acc model : pystr) (a : ChatApp) :
  current_model a = Some model ->
  nonempty model = true -> nonempty (strip acc) = true ->
  histories (commit_final acc a)
  = record_entry (histories a) model (EAssistant (strip acc)).
Proof.
  intros Hm Hne Hacc. unfold commit_final. by rewrite Hm, Hne, Hacc.
Qed.

End Histories.

(** Claim C8 on the code, at the failing input: a send is issued against
    [m1], the user selects [m2] while the reply streams, and the stream
    ends.  The user turn is in the history of [m1]; the assistant turn
    of that exchange is in the history of [m2], and not in that of
    [m1]. *)
Theorem reply_committed_to_selected_model :
  let acts := [Type_ (py "hi"); Send; Work 0; Idle; Work 0; Idle; Work 0;
               Select 1; Idle; Work 0] in
  let s := run (H := Demo.host) acts Demo.start in
  s.1 = [Finished]
  /\ turns_for (histories (gui s.2)) (py "m1") = [EUser (py "hi")]
  /\ turns_for (histories (gui s.2)) (py "m2") = [EAssistant (py "Hello!")].
Proof. vm_compute. repeat split; reflexivity. Qed.

(** ** Running the embedding *)

Example demo_chat_stream :
  chat_stream (H := Demo.host) (Demo.server (py "m1") [])
  = ([py "He"; py "llo!"], None).
Proof. vm_compute. reflexivity. Qed.

Example demo_end_to_end :
  let s := run (H := Demo.host)
             [Type_ (py "hi"); Send; Work 0; Idle; Work 0; Idle; Work 0;
              Idle; Work 0; Select 1; Select 0]
             Demo.start in
  turns_for (histories (gui (snd s))) (py "m1")
  = [EUser (py "hi"); EAssistant (py "Hello!")]
  /\ textbox_get (history (gui (snd s)))
     = py "User: hi" ++ NL ++ NL ++ NL ++ py "Assistant: Hello!" ++ NL.
Proof. vm_compute. split; reflexivity. Qed.

(** * Further properties of the code *)

(** ** The extractor beyond the first three rules *)

(** Property X1.  When the value is no string and neither the five
    fields nor the embedded message give a text, the extractor returns
    the [content], else the [text], string of an embedded [delta]
    object; failing that, the concatenation in order of the texts of the
    entries of a [choices] list (a direct [text], else
    [message.content], else [delta.content], entries without any being
    skipped), and [None] when no entry has one. *)
Theorem extract_falls_back_to_delta_then_choices (v : json) :
  Spec.first_match
    [Spec.match_string v; Spec.match_field v; Spec.match_message v] = None ->
  extract_text_from_obj v
  = Ok (match Spec.match_delta v with
        | Some text => Some text
        | None => Spec.match_choices v
        end).
Proof.
  intros Hn. rewrite extract_refines. f_equal. unfold Spec.extract.
  cbn [Spec.first_match] in *.
  destruct (Spec.match_string v); [discriminate|].
  destruct (Spec.match_field v); [discriminate|].
  destruct (Spec.match_message v); [discriminate|].
  by destruct (Spec.match_delta v), (Spec.match_choices v).
Qed.

Lemma extract_falls_back_to_delta_then_choices_witness :
  extract_text_from_obj
    (JObj [(py "message", JObj [(py "role", JStr (py "assistant"))]);
           (py "delta", JObj [(py "content", JNull)]);
           (py "choices",
            JArr [JObj [(py "text", JInt 1);
                        (py "delta", JObj [(py "content", JStr (py "to"))])];
                  JStr (py "skipped");
                  JObj [(py "message",
                         JObj [(py "content", JStr (py "ken"))])]])])
  = Ok (Some (py "token")).
Proof.
  rewrite extract_falls_back_to_delta_then_choices.
  - vm_compute. reflexivity.
  - vm_compute. reflexivity.
Defined.

(** ** Failures of the chat stream *)

Section StreamFailures.
Context `{Host}.

(** Property X2.  [chat_stream] fails before yielding anything when the
    POST fails or is answered with a status from 400 to 599, whatever
    the body holds.  When the connection breaks after some lines, each
    of which [json.loads] decodes or refuses with [JSONDecodeError], the
    fragments of the lines received before the break are yielded, one
    per non-empty line in order, then the exception of the break is
    raised; what follows the break is not read. *)
Theorem chat_stream_failures :
  (forall e, chat_stream (Raise e) = ([], Some e))
  /\ (forall status lines,
        (400 <= status < 600)%Z ->
        chat_stream (Ok {| stream_status := status; stream_lines := lines |})
        = ([], Some (HTTPError status)))
  /\ (forall status raws e rest,
        raise_for_status status = Ok tt ->
        Forall DecoderSpec.decodes_or_is_refused raws ->
        exists fragments,
          chat_stream (Ok {| stream_status := status;
                             stream_lines := map Line raws ++ Broken e :: rest |})
          = (fragments, Some e)
          /\ Forall2 DecoderSpec.emits
               (List.filter DecoderSpec.is_payload raws) fragments).
Proof.
  split; [reflexivity|]. split.
  - intros status lines [Hlo Hhi]. unfold chat_stream, raise_for_status.
    cbn [stream_status].
    apply Z.leb_le in Hlo. apply Z.ltb_lt in Hhi. by rewrite Hlo, Hhi.
  - intros status raws e rest Hs Hraws. unfold chat_stream.
    cbn [stream_status stream_lines]. rewrite Hs.
    destruct (chat_stream_loop_app raws (Broken e :: rest) Hraws)
      as (fragments & E & Hf).
    exists fragments. cbn [chat_stream_loop fst snd] in E.
    by rewrite app_nil_r in E.
Qed.

(** Property X19.  On a reply accepted by [raise_for_status] whose
    lines [json.loads] each decodes or refuses with [JSONDecodeError],
    [chat_stream] consumes the lines in order and ends without raising:
    empty lines emit nothing, and every non-empty line emits exactly one
    fragment, namely the raw line when it is refused, the line's
    original text when it decodes but nothing is extracted, and the
    extracted text otherwise. *)
Theorem chat_stream_emits_decodable (status : Z) (raws : list pybytes) :
  raise_for_status status = Ok tt ->
  Forall DecoderSpec.decodes_or_is_refused raws ->
  exists fragments,
    chat_stream (Ok {| stream_status := status;
                       stream_lines := map Line raws |})
    = (fragments, None)
    /\ Forall2 DecoderSpec.emits
         (List.filter DecoderSpec.is_payload raws) fragments.
Proof.
  intros Hs Hraws. unfold chat_stream. cbn [stream_status stream_lines].
  rewrite Hs. by apply chat_stream_loop_lines.
Qed.

End StreamFailures.

Lemma chat_stream_emits_decodable_witness :
  chat_stream (H := Demo.host)
    (Ok {| stream_status := 200;
           stream_lines :=
             map Line [Demo.quoted "Hel"; [];
                       Demo.bytes_of "null"; Demo.bytes_of "{oops"] |})
  = ([py "Hel"; py "null"; py "{oops"], None).
Proof.
  destruct (chat_stream_emits_decodable (H := Demo.host) 200
              [Demo.quoted "Hel"; []; Demo.bytes_of "null";
               Demo.bytes_of "{oops"] eq_refl)
    as (fragments & E & _).
  - repeat constructor; intros exc; vm_compute; congruence.
  - rewrite E. vm_compute in E. injection E as <-. reflexivity.
Defined.

Lemma chat_stream_failures_witness :
  chat_stream (H := Demo.host)
    (Ok {| stream_status := 404; stream_lines := [Line (Demo.quoted "x")] |})
  = ([], Some (HTTPError 404))
  /\ chat_stream (H := Demo.host)
       (Ok {| stream_status := 200;
              stream_lines :=
                map Line [Demo.quoted "Hel"; []; Demo.bytes_of "lo"]
                ++ Broken ConnectionError :: [Line (Demo.quoted "lost")] |})
     = ([py "Hel"; py "lo"], Some ConnectionError).
Proof.
  destruct (chat_stream_failures (H := Demo.host)) as (_ & W2 & W3).
  split.
  - apply W2. lia.
  - destruct (W3 200%Z [Demo.quoted "Hel"; []; Demo.bytes_of "lo"]
                ConnectionError [Line (Demo.quoted "lost")] eq_refl)
      as (fragments & E & _).
    { repeat constructor; intros exc; vm_compute; congruence. }
    rewrite E. vm_compute in E. injection E as <-. reflexivity.
Defined.

(** ** Model listing: failures and other shapes *)

Section ListingMore.
Context `{Host}.

Lemma model_names_of_total (ms : list json) :
  exists names, model_names_of ms = Ok names /\ length names = length ms.
Proof.
  induction ms as [|m ms (names & E & Hl)]; [by exists []|].
  cbn [model_names_of]. rewrite E.
  destruct m; cbn [model_name isinstance_str isinstance_dict py_get mbind
                   result_bind mret result_ret];
    eexists; (split; [reflexivity|]); cbn [length]; by rewrite Hl.
Qed.

Lemma first_list_value_total (fields : list (pystr * json)) :
  exists names, first_list_value fields = Ok names.
Proof.
  induction fields as [|[k v] fields IH]; [by exists []|].
  destruct v; try exact IH.
  cbn [first_list_value].
  destruct (model_names_of_total items) as (names & E & _). eauto.
Qed.

(** Property X3.  What the worker of [refresh_models] hands over, case
    by case: the exception of a GET that failed; the [HTTPError] of a
    refusing status; the exception [json.loads] raised on the body,
    whichever it is; and on every body that decodes, whatever its shape,
    a list of names, without raising. *)
Theorem refresh_models_outcomes :
  (forall e, refresh_models (Raise e) = Raise e)
  /\ (forall r e, raise_for_status (status_code r) = Raise e ->
                  refresh_models (Ok r) = Raise e)
  /\ (forall r e, raise_for_status (status_code r) = Ok tt ->
                  json_loads (body r) = Raise e ->
                  refresh_models (Ok r) = Raise e)
  /\ (forall r data, raise_for_status (status_code r) = Ok tt ->
                     json_loads (body r) = Ok data ->
                     exists names, refresh_models (Ok r) = Ok names).
Proof.
  unfold refresh_models, list_models, reply_json.
  cbn [mbind result_bind]. repeat split.
  - by intros r e ->.
  - by intros r e -> ->.
  - intros r data -> ->. cbn [mbind result_bind].
    assert (Hn : forall models,
      exists names, normalize_models models = Ok names).
    { intros []; try (eexists; reflexivity).
      - destruct (model_names_of_total items) as (names & E & _). eauto.
      - apply first_list_value_total. }
    destruct data as [| | | | |items|fields];
      cbn [isinstance_dict isinstance_list py_contains py_getitem mbind
           result_bind mret result_ret].
    1-6: match goal with
         | |- context [normalize_models ?m] =>
             destruct (Hn m) as [names ->]; eexists; reflexivity
         end.
    case_bool_decide as Ht.
    + destruct Ht as [tags Ht]. rewrite Ht. cbn [mbind result_bind].
      destruct (Hn tags) as [names ->]. eexists; reflexivity.
    + unfold mret, result_ret. cbn [mbind result_bind].
      destruct (Hn (JObj fields)) as [names ->]. eexists; reflexivity.
Qed.

Lemma first_list_value_found (pre post : list (pystr * json)) (k : pystr)
    (entries : list json) :
  Forall (fun kv => isinstance_list kv.2 = false) pre ->
  first_list_value (pre ++ (k, JArr entries) :: post)
  = model_names_of entries.
Proof.
  induction 1 as [|[k' v] pre Hv _ IH]; [reflexivity|].
  cbn [app first_list_value]. by destruct v.
Qed.

Lemma first_list_value_none (fields : list (pystr * json)) :
  Forall (fun kv => isinstance_list kv.2 = false) fields ->
  first_list_value fields = Ok [].
Proof.
  induction 1 as [|[k' v] pre Hv _ IH]; [reflexivity|].
  cbn [first_list_value]. by destruct v.
Qed.

(** Property X4.  A listing wrapped in an object without a [tags] key is
    read from the first field, in the order of the document, that holds
    a list, whatever its key; an object holding no list gives the empty
    list, and a body that is neither an object nor a list gives the one
    name [str(body)]. *)
Theorem listing_under_any_key (r : reply) (data : json) :
  raise_for_status (status_code r) = Ok tt ->
  json_loads (body r) = Ok data ->
  match data with
  | JObj fields =>
      dict_lookup fields (py "tags") = None ->
      (forall pre k entries post,
         fields = pre ++ (k, JArr entries) :: post ->
         Forall (fun kv => isinstance_list kv.2 = false) pre ->
         Forall ListingSpec.valid_entry entries ->
         refresh_models (Ok r) = Ok (map ListingSpec.identifier entries))
      /\ (Forall (fun kv => isinstance_list kv.2 = false) fields ->
          refresh_models (Ok r) = Ok [])
  | JArr _ => True
  | _ => refresh_models (Ok r) = Ok [ensure_str (VObj data)]
  end.
Proof.
  intros Hs Hl. unfold refresh_models, list_models, reply_json.
  cbn [mbind result_bind]. rewrite Hs, Hl. cbn [mbind result_bind].
  destruct data as [| | | | |items|fields]; try done.
  intros Ht.
  cbn [isinstance_dict py_contains mbind result_bind]. rewrite Ht.
  rewrite bool_decide_false by (by intros [? ?]).
  cbn [isinstance_list mbind result_bind mret result_ret normalize_models].
  split.
  - intros pre k entries post -> Hpre Hv.
    rewrite first_list_value_found by done.
    destruct (model_names_of_valid entries Hv) as (names & -> & Hn).
    cbn [mbind result_bind mret result_ret]. by rewrite Hn.
  - intros Hno. by rewrite first_list_value_none.
Qed.

End ListingMore.

Lemma refresh_models_outcomes_witness :
  refresh_models (H := Demo.host) (Raise ConnectionError)
  = Raise ConnectionError
  /\ refresh_models (H := Demo.host)
       (Ok {| status_code := 500; body := Demo.plain_listing |})
     = Raise (HTTPError 500)
  /\ refresh_models (H := Demo.host)
       (Ok {| status_code := 200; body := py "<html>" |})
     = Raise JSONDecodeError
  /\ refresh_models (H := Demo.host)
       (Ok {| status_code := 200; body := Demo.decode (Demo.ones 5000) |})
     = Raise ValueError
  /\ exists names,
       refresh_models (H := Demo.host)
         (Ok {| status_code := 200; body := py "null" |}) = Ok names.
Proof.
  destruct (refresh_models_outcomes (H := Demo.host))
    as (W1 & W2 & W3 & W4).
  split; [apply W1|]. split; [apply W2; reflexivity|].
  split; [apply W3; [reflexivity|vm_compute; reflexivity]|].
  split; [apply W3; [reflexivity|vm_compute; reflexivity]|].
  apply W4 with (data := JNull); [reflexivity|vm_compute; reflexivity].
Defined.

Lemma listing_under_any_key_witness :
  refresh_models (H := listing_host)
    (Ok {| status_code := 200; body := models_listing |})
  = Ok [py "llama3"; py "phi"; py "3"].
Proof.
  pose proof (listing_under_any_key (H := listing_host)
                {| status_code := 200; body := models_listing |}
                (JObj [(py "count", JInt 3); (py "models", JArr Demo.entries)])
                eq_refl) as W.
  destruct W as [W _]; [vm_compute; reflexivity|vm_compute; reflexivity|].
  apply (W [(py "count", JInt 3)] (py "models") Demo.entries []).
  - reflexivity.
  - repeat constructor.
  - repeat constructor. by exists (py "phi").
Defined.

(** ** Stripped texts *)

Lemma lstrip_head (s : pystr) (c : N) (r : pystr) :
  lstrip s = c :: r -> isspace c = false.
Proof.
  induction s as [|d s IH]; [discriminate|]. cbn [lstrip].
  destruct (isspace d) eqn:Hd; [exact IH|]. intros E. by simplify_eq.
Qed.

Lemma lstrip_idem (s : pystr) : lstrip (lstrip s) = lstrip s.
Proof.
  induction s as [|d s IH]; [reflexivity|]. cbn [lstrip].
  destruct (isspace d) eqn:Hd; [exact IH|]. cbn [lstrip]. by rewrite Hd.
Qed.

Lemma lstrip_snoc_nonspace (x : pystr) (c : N) :
  isspace c = false -> lstrip (x ++ [c]) = lstrip x ++ [c].
Proof.
  intros Hc. induction x as [|d x IH]; cbn [app lstrip].
  - by rewrite Hc.
  - by destruct (isspace d).
Qed.

Lemma rstrip_cons_nonspace (c : N) (r : pystr) :
  isspace c = false -> rstrip (c :: r) = c :: rstrip r.
Proof.
  intros Hc. unfold rstrip. cbn [rev].
  rewrite lstrip_snoc_nonspace by done. by rewrite rev_unit.
Qed.

Lemma rstrip_idem (s : pystr) : rstrip (rstrip s) = rstrip s.
Proof. unfold rstrip. by rewrite rev_involutive, lstrip_idem. Qed.

Lemma strip_idem (s : pystr) : strip (strip s) = strip s.
Proof.
  unfold strip. destruct (lstrip s) as [|c r] eqn:E; [reflexivity|].
  pose proof (lstrip_head _ _ _ E) as Hc.
  rewrite (rstrip_cons_nonspace c r Hc). cbn [lstrip]. rewrite Hc.
  rewrite (rstrip_cons_nonspace c _ Hc). by rewrite rstrip_idem.
Qed.

Lemma strip_has_text (x y : pystr) (c : N) :
  isspace c = false -> nonempty (strip (x ++ c :: y)) = true.
Proof.
  intros Hc. unfold strip.
  assert (Hl : exists d r, lstrip (x ++ c :: y) = d :: r).
  { induction x as [|d x IH]; cbn [app lstrip].
    - rewrite Hc. eauto.
    - destruct (isspace d); eauto. }
  destruct Hl as (d & r & E). rewrite E.
  by rewrite (rstrip_cons_nonspace d r (lstrip_head _ _ _ E)).
Qed.

Lemma clean_strip (s : pystr) :
  nonempty (strip s) = true -> clean_text (strip s).
Proof. intros Hn. split; [exact Hn|apply strip_idem]. Qed.

(** ** What is stored is clean *)

Section Clean.
Context `{Host}.

Lemma clean_record (h : gmap pystr (list entry)) (m : pystr) (e : entry) :
  clean_histories h -> clean_entry e ->
  clean_histories (record_entry h m e).
Proof.
  intros Hh He k turns. unfold record_entry. rewrite lookup_insert.
  case_decide as Hk.
  - intros [= <-]. apply Forall_app. split; [|by constructor].
    unfold turns_for. destruct (h !! m) as [l|] eqn:El; [|constructor].
    by apply (Hh m).
  - apply Hh.
Qed.

Lemma clean_reset (h : gmap pystr (list entry)) (m : pystr) :
  clean_histories h -> clean_histories (<[m := []]> h).
Proof.
  intros Hh k turns. rewrite lookup_insert. case_decide.
  - by intros [= <-].
  - apply Hh.
Qed.

Lemma commit_final_clean (acc : pystr) (a : ChatApp) :
  clean_histories (histories a) ->
  clean_histories (histories (commit_final acc a)).
Proof.
  intros Hh. unfold commit_final.
  destruct (current_model a) as [m|]; [|exact Hh].
  destruct (nonempty (strip acc)) eqn:Hn; [|exact Hh].
  destruct (nonempty m); [|exact Hh].
  cbn [andb set_histories histories].
  apply clean_record; [exact Hh|]. by apply clean_strip.
Qed.

Lemma handle_special_token_clean (token : pystr) (a : ChatApp) :
  clean_histories (histories a) ->
  clean_histories (histories (handle_special_token token a).1).
Proof.
  intros Hh. unfold handle_special_token.
  destruct (pystr_eqb token CLEAR_TOKEN).
  { destruct (current_model a) as [[|c m]|]; try exact Hh.
    cbn [fst]. case_bool_decide; [|exact Hh].
    cbn [set_histories histories set_history]. by apply clean_reset. }
  destruct (pystr_eqb token START_TOKEN).
  { by destruct (model_running a). }
  destruct (pystr_eqb token STOP_TOKEN); [|exact Hh].
  by destruct (model_running a).
Qed.

Lemma append_user_clean (text : pystr) (a : ChatApp) :
  clean_text text -> clean_histories (histories a) ->
  clean_histories (histories (append_user text true a)).
Proof.
  intros Ht Hh. unfold append_user, _insert_user_text.
  cbn [set_history histories ensure_str].
  destruct (current_model a) as [m|]; [|exact Hh].
  destruct (nonempty m && true); [|exact Hh].
  cbn [set_histories histories]. by apply clean_record.
Qed.

Lemma on_send_clean (a : ChatApp) :
  clean_histories (histories a) ->
  clean_histories (histories (on_send a).1).
Proof.
  intros Hh. unfold on_send.
  destruct (current_model a) as [[|c m]|]; try exact Hh.
  destruct (negb (nonempty (strip (input_box a)))
            && negb (is_set (attached_image_path a))); [exact Hh|].
  destruct (is_token (strip (input_box a))
            && negb (is_set (attached_image_path a))).
  { pose proof (handle_special_token_clean (strip (input_box a)) a Hh) as Hc.
    by destruct (handle_special_token (strip (input_box a)) a). }
  destruct (negb (model_running a)); [exact Hh|].
  match goal with
  | |- context [match ?enc with Ok _ => _ | Raise _ => _ end] =>
      destruct enc as [imgs|exc]; [|exact Hh]
  end.
  cbn [fst set_attached_image_path set_input_box histories].
  destruct (nonempty (strip (input_box a))) eqn:Hn.
  - apply append_user_clean; [by apply clean_strip|exact Hh].
  - destruct (is_set (attached_image_path a)); [|exact Hh].
    apply append_user_clean; [|exact Hh]. split; reflexivity.
Qed.

Lemma step_clean (act : action) (s : list worker * world) :
  clean_histories (histories (gui s.2)) ->
  clean_histories (histories (gui (step act s).2)).
Proof.
  destruct s as [ws σ]. cbn [snd]. intros Hh.
  destruct act as [i| |row|text|]; cbn [step].
  - destruct (ws !! i) as [w|]; [|exact Hh].
    destruct w as [model stream|model acc [[|chunk rest] [exc|]]|];
      cbn [_stream_response_step snd after with_gui gui]; try exact Hh.
    by apply commit_final_clean.
  - destruct (queue σ) as [|[|acc_text|exc] q]; cbn [snd]; try exact Hh.
    + cbn [run_callback with_gui gui].
      by rewrite (proj2 (proj2 (proj2
           (append_assistant_placeholder (py "...") (gui σ))))).
  - cbn [snd with_gui gui]. by rewrite on_model_select_keeps_histories.
  - exact Hh.
  - pose proof (on_send_clean (gui σ) Hh) as Hc.
    by destruct (on_send (gui σ)).
Qed.

(** Property X5.  Whatever the user and the worker threads do and in
    whatever order, every user or assistant turn that gets stored holds
    a text that is not empty and has no whitespace at its ends: sends,
    control tokens, model selections, stream ends and callbacks keep
    histories that are clean this way clean. *)
Theorem stored_turns_stay_clean (acts : list action)
    (s : list worker * world) :
  clean_histories (histories (gui s.2)) ->
  clean_histories (histories (gui (run acts s).2)).
Proof.
  revert s. induction acts as [|act acts IH]; intros s Hs; [exact Hs|].
  cbn [run foldl]. apply IH. by apply step_clean.
Qed.

End Clean.

Lemma stored_turns_stay_clean_witness :
  let acts := [Type_ (py "  hi  " ++ NL); Send; Work 0; Work 0; Select 1;
               Work 0; Idle; Work 0; Type_ (py " yo"); Send; Work 1;
               Type_ CLEAR_TOKEN; Send] in
  clean_histories (histories (gui (run (H := Demo.host) acts Demo.start).2)).
Proof.
  apply (stored_turns_stay_clean (H := Demo.host)).
  intros m turns Hm. vm_compute in Hm. discriminate.
Defined.

(** ** Selecting a model *)

Section Selecting.
Context `{Host}.

Lemma show_entry_same (e : entry) (x y : ChatApp) :
  same_but_index x y -> same_but_index (show_entry e x) (show_entry e y).
Proof.
  unfold same_but_index. destruct x, y. cbn. intros E. simplify_eq.
  destruct e as [text|text|path caption]; cbn; try reflexivity.
  unfold show_entry, append_image, _insert_user_text. cbn.
  repeat case_match; reflexivity.
Qed.

Lemma show_entries_same (entries : list entry) (x y : ChatApp) :
  same_but_index x y ->
  same_but_index (foldl (fun acc e => show_entry e acc) x entries)
                 (foldl (fun acc e => show_entry e acc) y entries).
Proof.
  revert x y. induction entries as [|e entries IH]; intros x y Hxy; [done|].
  cbn [foldl]. apply IH. by apply show_entry_same.
Qed.

Lemma show_entry_core (e : entry) (x : ChatApp) :
  same_core (show_entry e x) x.
Proof.
  destruct e as [text|text|path caption]; try by repeat split.
  pose proof (show_entry_keeps_histories (EImage path caption) x) as Hh.
  unfold show_entry in *. repeat case_match; try by repeat split.
  unfold append_image in *. repeat case_match; by repeat split.
Qed.

Lemma show_entries_core (entries : list entry) (x : ChatApp) :
  same_core (foldl (fun acc e => show_entry e acc) x entries) x.
Proof.
  revert x. induction entries as [|e entries IH]; intros x.
  - by repeat split.
  - cbn [foldl]. destruct (IH (show_entry e x)) as (I1 & I2 & I3 & I4 & I5).
    destruct (show_entry_core e x) as (S1 & S2 & S3 & S4 & S5).
    repeat split; congruence.
Qed.

Lemma on_model_select_core (sel : option nat) (a : ChatApp) :
  same_core (on_model_select sel a) a.
Proof.
  destruct sel as [i|]; [|by repeat split]. unfold on_model_select.
  destruct (show_entries_core
              (turns_for (histories (set_history (set_current_model a
                 (default [] (model_listbox a !! i))) []))
                 (default [] (model_listbox a !! i)))
              (set_history (set_current_model a
                 (default [] (model_listbox a !! i))) []))
    as (I1 & I2 & I3 & I4 & I5).
  repeat split; cbn [set_last_assistant_index attached_image_path
    model_running histories input_box model_listbox]; assumption.
Qed.

Lemma on_model_select_reads_core (i : nat) (x y : ChatApp) :
  same_core x y ->
  on_model_select (Some i) x = on_model_select (Some i) y.
Proof.
  intros (C1 & C2 & C3 & C4 & C5). unfold on_model_select.
  rewrite C5.
  set (model := default [] (model_listbox y !! i)).
  assert (Hs : same_but_index (set_history (set_current_model x model) [])
                              (set_history (set_current_model y model) [])).
  { unfold same_but_index. destruct x, y. cbn in *. by simplify_eq. }
  cbn [set_history set_current_model histories]. rewrite C3.
  apply (show_entries_same (turns_for (histories y) model)) in Hs.
  exact Hs.
Qed.

(** Property X6.  What a model selection leaves behind depends on the
    stored state and on the row selected only: selecting a row after any
    other selection gives exactly the state that selecting it directly
    gives, so switching to another model and back reproduces the display
    of a model from its stored turns. *)
Theorem select_forgets_previous_selection (i : nat) (sel : option nat)
    (a : ChatApp) :
  on_model_select (Some i) (on_model_select sel a)
  = on_model_select (Some i) a.
Proof. apply on_model_select_reads_core, on_model_select_core. Qed.

(** Property X7.  A model selection makes the selected row the current
    model and forgets the position of the last assistant block; it
    changes no stored history, nor the run flag, the input box, the
    attachment or the model list.  Without a selected row it changes
    nothing at all. *)
Theorem select_changes_display_only (sel : option nat) (a : ChatApp) :
  same_core (on_model_select sel a) a
  /\ match sel with
     | Some i =>
         current_model (on_model_select sel a)
         = Some (default [] (model_listbox a !! i))
         /\ last_assistant_index (on_model_select sel a) = None
     | None => on_model_select sel a = a
     end.
Proof.
  split; [apply on_model_select_core|].
  destruct sel as [i|]; [|reflexivity]. split; [|reflexivity].
  unfold on_model_select. cbn [set_last_assistant_index current_model].
  set (a2 := set_history _ []).
  assert (Hc : forall entries x,
    current_model (foldl (fun acc e => show_entry e acc) x entries)
    = current_model x).
  { induction entries as [|e entries IH]; intros x; [done|].
    cbn [foldl]. rewrite IH.
    destruct e as [text|text|path caption]; try reflexivity.
    unfold show_entry, append_image. repeat case_match; reflexivity. }
  by rewrite Hc.
Qed.

End Selecting.

(** ** What the history widget shows *)

Section Display.
Context `{Host}.

Lemma textbox_get_app (w1 w2 : textbox) :
  textbox_get (w1 ++ w2) = textbox_get w1 ++ textbox_get w2.
Proof.
  induction w1 as [|[c|] w1 IH]; cbn [app textbox_get]; by rewrite ?IH.
Qed.

Lemma textbox_get_chars (s : pystr) : textbox_get (map Ch s) = s.
Proof. induction s as [|c s IH]; cbn [map textbox_get]; by rewrite ?IH. Qed.

Lemma separator_first (w : textbox) (first : bool) :
  first = negb (nonempty (strip (textbox_get w))) ->
  separator w = if first then [] else NL ++ NL.
Proof.
  intros ->. unfold separator. by destruct (nonempty _).
Qed.

Lemma shown_entries (entries : list entry) :
  forall (a : ChatApp) (first : bool),
    PIL_AVAILABLE = false \/ forallb is_text_entry entries = true ->
    first = negb (nonempty (strip (textbox_get (history a)))) ->
    textbox_get (history (foldl (fun acc e => show_entry e acc) a entries))
    = textbox_get (history a) ++ transcript_from first entries.
Proof.
  induction entries as [|e entries IH]; intros a first Hp Hf.
  - cbn [foldl transcript_from]. by rewrite app_nil_r.
  - cbn [foldl transcript_from].
    assert (Hp' : PIL_AVAILABLE = false
                  \/ forallb is_text_entry entries = true).
    { destruct Hp as [Hp|Hp]; [by left|right].
      cbn [forallb] in Hp. by apply andb_true_iff in Hp as [_ Hp]. }
    destruct e as [text|text|path caption]; cbn [is_text_entry].
    + rewrite (IH _ false Hp').
      * cbn [show_entry _insert_user_text set_history history ensure_str].
        unfold textbox_insert_end.
        rewrite textbox_get_app, textbox_get_chars.
        rewrite (separator_first _ first Hf). cbn [turn_line].
        by rewrite <- !app_assoc.
      * cbn [show_entry _insert_user_text set_history history ensure_str].
        unfold textbox_insert_end.
        rewrite textbox_get_app, textbox_get_chars.
        change (py "User: ") with (85%N :: py "ser: ").
        rewrite (app_assoc (textbox_get _)). cbn [app].
        by rewrite strip_has_text.
    + rewrite (IH _ false Hp').
      * cbn [show_entry _insert_assistant_text set_history history
             ensure_str set_last_assistant_index].
        unfold textbox_insert_end.
        rewrite textbox_get_app, textbox_get_chars.
        rewrite (separator_first _ first Hf). cbn [turn_line].
        by rewrite <- !app_assoc.
      * cbn [show_entry _insert_assistant_text set_history history
             ensure_str set_last_assistant_index].
        unfold textbox_insert_end.
        rewrite textbox_get_app, textbox_get_chars.
        change (py "Assistant: ") with (65%N :: py "ssistant: ").
        rewrite (app_assoc (textbox_get _)). cbn [app].
        by rewrite strip_has_text.
    + destruct Hp as [Hp|Hp]; [|discriminate Hp].
      cbn [show_entry]. rewrite Hp. cbn [andb]. by apply IH; [left|].
Qed.

(** Property X8.  After a model selection the history widget holds the
    transcript of the stored turns of that model and nothing else: one
    line ["User: ..."] or ["Assistant: ..."] per text turn in stored
    order, the first without anything before it and two line feeds
    before each of the others.  This holds when the stored turns are all text
    turns, and, image turns then being left out, when Pillow is not
    available. *)
Theorem select_shows_transcript (row : nat) (a : ChatApp) :
  let turns :=
    turns_for (histories a) (default [] (model_listbox a !! row)) in
  PIL_AVAILABLE = false \/ forallb is_text_entry turns = true ->
  textbox_get (history (on_model_select (Some row) a)) = transcript turns.
Proof.
  intros turns Hp. unfold on_model_select.
  cbn [set_last_assistant_index history].
  rewrite (shown_entries _ _ true); [reflexivity|exact Hp|reflexivity].
Qed.

(** Property X9.  [update_block] replaces the assistant block wholesale:
    an update applied after another leaves the block of its own text
    alone, whatever the text of the earlier one was and whether the
    position of the block was known or had to be searched for.  The
    block stands after what the first update kept of the widget, less
    the line feed this ended in, which the second cut takes along; when
    it ended in none, the two updates leave exactly the state the later
    one leaves alone. *)
Theorem update_block_replaces (older newer : pystr) (a : ChatApp) :
  let kept :=
    match last_assistant_index a with
    | Some index => textbox_delete_from (history a) index
    | None => cut_at_last_assistant (history a)
    end in
  let base := without_last_newline kept in
  update_block newer (update_block older a)
  = set_last_assistant_index
      (set_history a
         (base ++ map Ch (separator base ++ py "Assistant: " ++ newer ++ NL)))
      (Some (length base))
  /\ (base = kept ->
      update_block newer (update_block older a) = update_block newer a).
Proof.
  intros kept base.
  assert (E : update_block newer (update_block older a)
              = set_last_assistant_index
                  (set_history a
                     (base ++ map Ch (separator base ++ py "Assistant: "
                                      ++ newer ++ NL)))
                  (Some (length base))).
  { unfold update_block.
    cbn [set_last_assistant_index set_history last_assistant_index history
         current_model attached_image_path model_running histories
         input_box model_listbox model_label].
    fold kept. unfold textbox_insert_end, textbox_index_end.
    rewrite textbox_delete_from_block. reflexivity. }
  split; [exact E|].
  intros Hb. rewrite E, Hb. reflexivity.
Qed.

End Display.

Lemma select_shows_transcript_witness :
  let a := set_histories (Demo.stopped [])
             (<[py "m1" := [EUser (py "hi"); EImage (py "cat.png") None;
                            EAssistant (py "Hello!"); EUser (py "bye")]]>
                (histories (Demo.stopped []))) in
  textbox_get (history (on_model_select (H := Demo.host) (Some 0) a))
  = py "User: hi" ++ NL ++ NL ++ NL ++ py "Assistant: Hello!" ++ NL
    ++ NL ++ NL ++ py "User: bye" ++ NL.
Proof.
  cbv zeta.
  rewrite (select_shows_transcript (H := Demo.host)) by (left; reflexivity).
  vm_compute. reflexivity.
Defined.

Lemma update_block_replaces_witness :
  let a := append_assistant (H := Demo.host) (py "...") true false
             Demo.sent in
  update_block (py "Hello") (update_block (py "He") a)
  = update_block (py "Hello") a
  /\ textbox_get (history (update_block (py "Hello") a))
     = py "User: hi" ++ NL ++ NL ++ py "Assistant: Hello" ++ NL.
Proof.
  cbv zeta. split; [|vm_compute; reflexivity].
  apply (update_block_replaces (py "He") (py "Hello")
           (append_assistant (H := Demo.host) (py "...") true false
              Demo.sent)).
  vm_compute. reflexivity.
Defined.

(** ** An accepted send *)

Section Accepted.
Context `{Host}.

(** What an accepted send does. *)
Lemma send_starts_one_stream_facts (a : ChatApp) (c : N) (m : pystr)
    (imgs : option (list pystr)) :
  current_model a = Some (c :: m) ->
  model_running a = true ->
  nonempty (strip (input_box a)) || is_set (attached_image_path a) = true ->
  is_token (strip (input_box a))
    && negb (is_set (attached_image_path a)) = false ->
  match attached_image_path a with
  | Some (p0 :: p) =>
      exists data, read_file (p0 :: p) = Some data
                   /\ imgs = Some [b64encode data]
  | _ => imgs = None
  end ->
  let user_text := strip (input_box a) in
  let stored := if nonempty user_text then user_text
                else py "Sent an image" in
  let a' := (on_send a).1 in
  (on_send a).2
  = [StartStream (c :: m)
       [system_prompt;
        {| role := py "user"; content := user_text; images := imgs |}]]
  /\ histories a' = record_entry (histories a) (c :: m) (EUser stored)
  /\ history a'
     = history a
       ++ map Ch (separator (history a) ++ py "User: " ++ stored ++ NL)
  /\ input_box a' = [] /\ attached_image_path a' = None
  /\ current_model a' = Some (c :: m) /\ model_running a' = true
  /\ last_assistant_index a' = last_assistant_index a.
Proof.
  intros Hm Hr Hne Hnt Himg user_text stored a'. subst a'.
  unfold on_send. rewrite Hm. fold user_text in Hne, Hnt |- *.
  rewrite Hnt, Hr. cbn [negb].
  assert (He : negb (nonempty user_text)
               && negb (is_set (attached_image_path a)) = false).
  { destruct (nonempty user_text), (is_set (attached_image_path a));
      by try discriminate Hne. }
  rewrite He.
  assert (Henc :
    match (if is_set (attached_image_path a)
           then Some (default [] (attached_image_path a)) else None) with
    | Some path =>
        match read_file path with
        | Some img_bytes => Ok (Some [b64encode img_bytes])
        | None => Raise OSError
        end
    | None => Ok None
    end = Ok imgs).
  { destruct (attached_image_path a) as [[|p0 p]|]; cbn [is_set nonempty];
      try by rewrite Himg.
    destruct Himg as (data & Hd & ->). cbn [from_option id].
    by rewrite Hd. }
  rewrite Henc. cbn [fst snd].
  split; [reflexivity|].
  assert (Hu : (if nonempty user_text then append_user user_text true a
                else if is_set (attached_image_path a)
                     then append_user (py "Sent an image") true a else a)
               = append_user stored true a).
  { subst stored. destruct (nonempty user_text); [done|].
    cbn [orb] in Hne. by rewrite Hne. }
  rewrite Hu. unfold append_user, _insert_user_text. rewrite Hm.
  cbn [nonempty andb ensure_str set_attached_image_path set_input_box
       set_history set_histories histories history input_box
       attached_image_path current_model model_running
       last_assistant_index].
  by rewrite Hr.
Qed.

(** Property X10.  A send with a model selected, the model running, a
    text or an attachment present, and which is not an intercepted
    control token (a token typed with an image attached is not
    intercepted), starts exactly one stream, for the current model, with
    two messages: the fixed system prompt, then the user's stripped text
    with the attached file, if any, as one base64 string.  It stores
    exactly one turn, a user turn holding the stripped text, or
    ["Sent an image"] when there is no text, at the end of the current
    model's history, shows it as a new ["User: ..."] line, empties the
    input box and drops the attachment.  The system prompt is stored
    nowhere. *)
Theorem send_starts_one_stream (a : ChatApp) (c : N) (m : pystr)
    (imgs : option (list pystr)) :
  current_model a = Some (c :: m) ->
  model_running a = true ->
  nonempty (strip (input_box a)) || is_set (attached_image_path a) = true ->
  is_token (strip (input_box a))
    && negb (is_set (attached_image_path a)) = false ->
  match attached_image_path a with
  | Some (p0 :: p) =>
      exists data, read_file (p0 :: p) = Some data
                   /\ imgs = Some [b64encode data]
  | _ => imgs = None
  end ->
  let user_text := strip (input_box a) in
  let stored := if nonempty user_text then user_text
                else py "Sent an image" in
  let a' := (on_send a).1 in
  (on_send a).2
  = [StartStream (c :: m)
       [system_prompt;
        {| role := py "user"; content := user_text; images := imgs |}]]
  /\ histories a' = record_entry (histories a) (c :: m) (EUser stored)
  /\ history a'
     = history a
       ++ map Ch (separator (history a) ++ py "User: " ++ stored ++ NL)
  /\ input_box a' = [] /\ attached_image_path a' = None
  /\ current_model a' = Some (c :: m) /\ model_running a' = true
  /\ last_assistant_index a' = last_assistant_index a.
Proof. apply send_starts_one_stream_facts. Qed.

(** Property X11.  When the attached file cannot be read, a send that
    would otherwise be accepted shows one error dialog and does nothing
    else: no stream is started, nothing is stored, and the text typed
    and the attachment stay as they are. *)
Theorem send_with_unreadable_attachment (a : ChatApp) (c : N) (m : pystr)
    (p0 : N) (p : pystr) :
  current_model a = Some (c :: m) ->
  model_running a = true ->
  attached_image_path a = Some (p0 :: p) ->
  read_file (p0 :: p) = None ->
  on_send a = (a, [ShowError (py "Image Error") (exn_str OSError)]).
Proof.
  intros Hm Hr Ha Hf. unfold on_send. rewrite Hm, Ha, Hr.
  cbn [is_set nonempty negb andb from_option id]. rewrite !andb_false_r.
  by rewrite Hf.
Qed.

End Accepted.

Lemma send_starts_one_stream_witness :
  let a := set_attached_image_path
             (set_input_box Demo.listed (py " " ++ CLEAR_TOKEN ++ py " "))
             (Some (py "cat.png")) in
  let a' := (on_send (H := Demo.host) a).1 in
  (on_send (H := Demo.host) a).2
  = [StartStream (py "m1")
       [system_prompt;
        {| role := py "user"; content := CLEAR_TOKEN;
           images := Some [py "PNG"] |}]]
  /\ turns_for (histories a') (py "m1") = [EUser CLEAR_TOKEN]
  /\ attached_image_path a' = None.
Proof.
  cbv zeta.
  destruct (send_starts_one_stream (H := Demo.host)
              (set_attached_image_path
                 (set_input_box Demo.listed (py " " ++ CLEAR_TOKEN ++ py " "))
                 (Some (py "cat.png")))
              109%N (py "1") (Some [py "PNG"]))
    as (W1 & W2 & _ & _ & W5 & _).
  - reflexivity.
  - reflexivity.
  - vm_compute. reflexivity.
  - vm_compute. reflexivity.
  - exists (Demo.bytes_of "PNG"). split; reflexivity.
  - split; [exact W1|]. split; [|exact W5].
    rewrite W2. vm_compute. reflexivity.
Defined.

Lemma send_with_unreadable_attachment_witness :
  let a := set_attached_image_path (set_input_box Demo.listed (py "look"))
             (Some (py "gone.png")) in
  on_send (H := Demo.host) a
  = (a, [ShowError (py "Image Error") (py "<error>")]).
Proof.
  cbv zeta.
  apply (send_with_unreadable_attachment (H := Demo.host) _ 109%N (py "1")
           103%N (py "one.png")); reflexivity.
Defined.

(** ** A whole exchange *)

Section Exchange.
Context `{Host}.

Lemma dialogs_queued_app (q1 q2 : list callback) :
  dialogs_queued (q1 ++ q2) = dialogs_queued q1 ++ dialogs_queued q2.
Proof.
  induction q1 as [|[] q1 IH]; cbn [app dialogs_queued]; by rewrite ?IH.
Qed.

(** Shown, queued and still to come dialogs of one stream add up to the
    same list at every step. *)
Lemma dialogs_step (act : action) (w : worker) (σ : world) :
  stream_action act = true ->
  exists w' σ',
    step act ([w], σ) = ([w'], σ')
    /\ shown σ' ++ dialogs_queued (queue σ') ++ dialogs_to_come w'
       = shown σ ++ dialogs_queued (queue σ) ++ dialogs_to_come w.
Proof.
  destruct act as [i| | | |]; try discriminate; intros _; cbn [step].
  - destruct i as [|i]; [|by exists w, σ].
    cbn [lookup list_lookup].
    destruct w as [model [fs e]|model acc [[|chunk rest] [exc|]]|];
      cbn [_stream_response_step];
      eexists _, _; (split; [reflexivity|]);
      cbn [after with_gui shown queue gui dialogs_to_come];
      rewrite ?dialogs_queued_app; cbn [dialogs_queued];
      rewrite ?app_nil_r; reflexivity.
  - destruct (queue σ) as [|[|acc_text|exc] q] eqn:Eq.
    + exists w, σ. by rewrite Eq.
    + eexists _, _. split; [reflexivity|]. reflexivity.
    + eexists _, _. split; [reflexivity|]. reflexivity.
    + eexists _, _. split; [reflexivity|].
      cbn [run_callback show shown queue dialogs_queued].
      by rewrite <- app_assoc.
Qed.

Lemma dialogs_run (acts : list action) :
  forall (w : worker) (σ : world),
    forallb stream_action acts = true ->
    exists w' σ',
      run acts ([w], σ) = ([w'], σ')
      /\ shown σ' ++ dialogs_queued (queue σ') ++ dialogs_to_come w'
         = shown σ ++ dialogs_queued (queue σ) ++ dialogs_to_come w.
Proof.
  induction acts as [|act acts IH]; intros w σ Ha.
  - by exists w, σ.
  - cbn [forallb] in Ha. apply andb_true_iff in Ha as [Hact Hacts].
    destruct (dialogs_step act w σ Hact) as (w1 & σ1 & E1 & D1).
    destruct (IH w1 σ1 Hacts) as (w2 & σ2 & E2 & D2).
    exists w2, σ2. cbn [run foldl]. rewrite E1. split; [exact E2|].
    by rewrite D2.
Qed.

(** Property X12.  Once a stream left alone by the user is over, the
    worker having returned and the main loop having run every queued
    callback, under whatever interleaving: the assistant block shows the
    concatenation of all fragments received, or still the ["..."]
    placeholder when none was; it stands after the text that stood
    before it, less one line feed at its end for each update, each cut
    taking one along if there is one, and the position recorded for the
    block is the end of that text; and exactly one error dialog, ["Chat failed:"]
    followed by the exception's text, has been shown when the stream
    ended in an exception, none when it ended normally. *)
Theorem stream_over (a0 : ChatApp) (fragments : list pystr)
    (ending : option exn) (model : pystr) (acts : list action) :
  forallb stream_action acts = true ->
  let s := run acts ([Starting model (fragments, ending)],
                     {| gui := a0; queue := []; shown := [] |}) in
  s.1 = [Finished] -> queue s.2 = [] ->
  history (gui s.2)
  = block_after a0 (length fragments)
      (match fragments with
       | [] => py "..."
       | _ => concat fragments
       end)
  /\ last_assistant_index (gui s.2)
     = Some (length (kept_before a0 (length fragments)))
  /\ shown s.2 = match ending with
                 | Some exc => [chat_failed_dialog exc]
                 | None => []
                 end.
Proof.
  intros Ha s Hfin Hq.
  destruct (inv_run a0 fragments ending acts _ 0
              (inv_start a0 fragments ending model []) Ha)
    as (k & Hk & _).
  fold s in Hk.
  destruct Hk as (w & m & Hw & Hp & Hkm & Hqueue & Hh & Hi & _ & _).
  rewrite Hfin in Hw. injection Hw as <-. cbn [progress] in Hp. subst m.
  rewrite Hq, firstn_all in Hqueue. symmetry in Hqueue.
  apply drop_nil_inv in Hqueue.
  assert (k = length (callbacks fragments ending)) as -> by lia.
  rewrite callbacks_length in Hh, Hi.
  destruct (dialogs_run acts (Starting model (fragments, ending))
              {| gui := a0; queue := []; shown := [] |} Ha)
    as (w' & σ' & Er & Hd).
  fold s in Er. rewrite Er in Hfin, Hq, Hh, Hi |- *. cbn [fst snd] in *.
  injection Hfin as ->. rewrite Hq in Hd.
  cbn [shown queue dialogs_queued dialogs_to_come app] in Hd.
  rewrite !app_nil_r in Hd.
  assert (Hu : updates_in fragments
                 (S (length fragments
                     + match ending with Some _ => 1 | None => 0 end))
               = length fragments)
    by (unfold updates_in; destruct ending; lia).
  cbn [Nat.add history_after index_after] in Hh, Hi. rewrite Hu in Hh, Hi.
  split; [|split; [exact Hi|exact Hd]].
  rewrite Hh.
  destruct fragments as [|f fs]; [reflexivity|].
  cbn [length]. by rewrite take_ge by (cbn [length]; lia).
Qed.

(** Property X13.  A whole exchange: after an accepted send of a text
    without attachment, and once the worker it started has returned, in
    whatever order worker and main loop took their steps, the history of
    the model holds what it held before, then the user turn with the
    stripped input, then, if the stream ended normally with a text that
    is not blank, one assistant turn with the stripped concatenation of
    the fragments [chat_stream] yielded for that model and these two
    messages; nothing else was stored. *)
Theorem exchange_is_recorded (a : ChatApp) (c : N) (m : pystr)
    (fragments : list pystr) (ending : option exn) (acts : list action) :
  current_model a = Some (c :: m) ->
  model_running a = true ->
  is_set (attached_image_path a) = false ->
  nonempty (strip (input_box a)) = true ->
  is_token (strip (input_box a)) = false ->
  chat_stream
    (post_chat (c :: m)
       [system_prompt;
        {| role := py "user"; content := strip (input_box a);
           images := None |}])
  = (fragments, ending) ->
  forallb stream_action acts = true ->
  let s := run (Send :: acts) ([], {| gui := a; queue := []; shown := [] |}) in
  s.1 = [Finished] ->
  histories (gui s.2)
  = <[c :: m :=
        turns_for (histories a) (c :: m)
        ++ EUser (strip (input_box a))
           :: match ending with
              | None =>
                  if nonempty (strip (concat fragments))
                  then [EAssistant (strip (concat fragments))]
                  else []
              | Some _ => []
              end]> (histories a).
Proof.
  intros Hm Hr Hi Hne Hnt Hcs Ha s Hfin.
  assert (Himg : match attached_image_path a with
                 | Some (p0 :: p) =>
                     exists data, read_file (p0 :: p) = Some data
                                  /\ @None (list pystr) = Some [b64encode data]
                 | _ => @None (list pystr) = None
                 end).
  { by destruct (attached_image_path a) as [[|p0 p]|]. }
  assert (Hne' : nonempty (strip (input_box a))
                 || is_set (attached_image_path a) = true)
    by by rewrite Hne.
  assert (Hnt' : is_token (strip (input_box a))
                 && negb (is_set (attached_image_path a)) = false)
    by by rewrite Hnt.
  destruct (send_starts_one_stream_facts a c m None Hm Hr Hne' Hnt' Himg)
    as (S1 & S2 & _ & _ & _ & S6 & _).
  rewrite Hne in S2.
  assert (Hs1 : step Send ([], {| gui := a; queue := []; shown := [] |})
                = ([Starting (c :: m) (fragments, ending)],
                   {| gui := (on_send a).1; queue := [];
                      shown := (on_send a).2 |})).
  { cbn [step gui]. destruct (on_send a) as [a1 es]. cbn [fst snd] in *.
    subst es. cbn [spawn app show with_gui gui queue shown].
    by rewrite Hcs. }
  subst s.
  change (run (Send :: acts) ?x) with (run acts (step Send x)) in *.
  rewrite Hs1 in *.
  destruct (inv_run (on_send a).1 fragments ending acts _ 0
              (inv_start (on_send a).1 fragments ending (c :: m)
                 (on_send a).2) Ha)
    as (k & Hk & _).
  destruct Hk as (w & mm & Hw & _ & _ & _ & _ & _ & _ & Hh).
  rewrite Hfin in Hw. injection Hw as <-.
  rewrite Hh. cbn [is_finished]. unfold histories_after, commit_final.
  destruct ending as [exc|]; [by rewrite S2|].
  rewrite S6. cbn [nonempty]. rewrite andb_true_r.
  destruct (nonempty (strip (concat fragments)));
    cbn [set_histories histories]; rewrite S2; [|reflexivity].
  unfold record_entry. rewrite turns_for_insert.
  case_decide; [|done].
  rewrite insert_insert_eq, <- app_assoc. reflexivity.
Qed.

End Exchange.

Lemma stream_over_witness :
  let acts := [Work 0; Idle; Work 0; Work 0; Work 0; Idle; Idle; Idle] in
  let s := run (H := Demo.host) acts
             ([Starting (py "m1")
                 ([py "He"; py "llo!"], Some ConnectionError)],
              {| gui := Demo.sent; queue := []; shown := [] |}) in
  textbox_get (history (gui s.2))
  = py "User: hi" ++ NL ++ NL ++ py "Assistant: Hello!" ++ NL
  /\ last_assistant_index (gui s.2) = Some 8
  /\ shown s.2
     = [ShowError (py "Error") (py "Chat failed:" ++ NL ++ py "<error>")]
  /\ histories (gui s.2) = histories Demo.sent.
Proof.
  cbv zeta.
  destruct (stream_over (H := Demo.host) Demo.sent [py "He"; py "llo!"]
              (Some ConnectionError) (py "m1")
              [Work 0; Idle; Work 0; Work 0; Work 0; Idle; Idle; Idle]
              eq_refl)
    as (W1 & W2 & W3); [vm_compute; reflexivity|vm_compute; reflexivity|].
  rewrite W1, W2, W3. vm_compute. repeat split; reflexivity.
Defined.

Lemma exchange_is_recorded_witness :
  let a := set_input_box Demo.listed (py "  hi " ++ NL) in
  let acts := [Work 0; Idle; Work 0; Work 0; Idle; Work 0] in
  let s := run (H := Demo.host) (Send :: acts)
             ([], {| gui := a; queue := []; shown := [] |}) in
  turns_for (histories (gui s.2)) (py "m1")
  = [EUser (py "hi"); EAssistant (py "Hello!")].
Proof.
  cbv zeta.
  rewrite (exchange_is_recorded (H := Demo.host)
             (set_input_box Demo.listed (py "  hi " ++ NL))
             109%N (py "1") [py "He"; py "llo!"] None
             [Work 0; Idle; Work 0; Work 0; Idle; Work 0]);
    try (vm_compute; reflexivity).
Defined.

(** ** The input box *)

Lemma count_newlines_nonneg (s : pystr) : (0 <= count_newlines s)%Z.
Proof.
  induction s as [|c s IH]; cbn [count_newlines]; [lia|].
  destruct (N.eqb c 10); lia.
Qed.

(** Property X14.  The input box never grows or shrinks out of its
    bounds: after [_on_key_release] its height lies between [min_lines]
    and [max_lines] (given in that order), its content is untouched, and
    within the bounds the height is one more than the number of line
    feeds typed; a content of whitespace only, line feeds included,
    counts as one line. *)
Theorem input_box_height (e : ExpandingEntry) :
  (min_lines e <= max_lines e)%Z ->
  let e' := _on_key_release e in
  let lines := (count_newlines (entry_content e) + 1)%Z in
  (min_lines e <= height e' <= max_lines e)%Z
  /\ entry_content e' = entry_content e
  /\ (nonempty (strip (entry_content e)) = true ->
      (min_lines e <= lines <= max_lines e)%Z -> height e' = lines)
  /\ (nonempty (strip (entry_content e)) = true ->
      (max_lines e <= lines)%Z -> height e' = max_lines e)
  /\ (nonempty (strip (entry_content e)) = false ->
      (min_lines e <= 1 <= max_lines e)%Z -> height e' = 1%Z).
Proof.
  intros Hb e' lines. subst e'. unfold _on_key_release. cbn [height].
  fold lines. pose proof (count_newlines_nonneg (entry_content e)).
  destruct (nonempty (strip (entry_content e)));
    repeat split; intros; try discriminate; try lia.
Qed.

Lemma input_box_height_witness :
  let e := {| before_cursor := py "a" ++ NL ++ py "b" ++ NL;
              after_cursor := py "c";
              height := 1; min_lines := 1; max_lines := 6 |} in
  height (_on_key_release e) = 3%Z.
Proof.
  cbv zeta.
  destruct (input_box_height
              {| before_cursor := py "a" ++ NL ++ py "b" ++ NL;
                 after_cursor := py "c";
                 height := 1; min_lines := 1; max_lines := 6 |})
    as (_ & _ & W & _); [cbn; lia|].
  rewrite W; [reflexivity|reflexivity|vm_compute; split; discriminate].
Defined.

Section ReturnKey.
Context `{Host}.

Lemma land_one (st : Z) : Z.land st 1 = (if Z.odd st then 1 else 0)%Z.
Proof.
  change 1%Z with (Z.ones 1) at 1. rewrite Z.land_ones by lia.
  change (2 ^ 1)%Z with 2%Z. rewrite Zmod_odd. reflexivity.
Qed.

(** Property X15.  The Return key.  With Shift held, which is bit 0 of
    the event state whatever the other modifier bits are, a line feed is
    inserted at the cursor and the send callback is not run: the rest of
    the window is as it was, whatever the callback is.  Without Shift,
    or when the state is no integer, a content of whitespace only leaves
    everything as it is, and any other content makes the method leave
    what the send callback leaves.  With [on_send], the callback of the
    program, a send started this way never ends in the warning for an
    empty message, and it leaves the input box empty or the window
    untouched. *)
Theorem return_key {S : Type}
    (send_callback : ExpandingEntry * S -> ExpandingEntry * S)
    (state : option Z) (e : ExpandingEntry) (s : S) :
  let shift := match state with Some st => Z.odd st | None => false end in
  let typed := nonempty (strip (entry_content e)) in
  let left := _on_return send_callback state (e, s) in
  (shift = true ->
     entry_content left.1 = before_cursor e ++ NL ++ after_cursor e
     /\ left.2 = s)
  /\ (shift = false -> typed = false -> left = (e, s))
  /\ (shift = false -> typed = true ->
      left = send_callback (e, s)
      /\ forall a : ChatApp,
           input_box a = entry_content e ->
           (on_send a).2 <> [empty_warning]
           /\ (input_box (on_send a).1 = [] \/ (on_send a).1 = a)).
Proof.
  intros shift typed left. subst left. unfold _on_return.
  assert (Hs : match state with
               | Some st => negb (Z.eqb (Z.land st 1) 0)
               | None => false
               end = shift).
  { subst shift. destruct state as [st|]; [|reflexivity].
    rewrite land_one. by destruct (Z.odd st). }
  rewrite Hs. fold typed.
  split; [|split]; intros Hshift; rewrite Hshift; cbn [fst snd].
  - split; [|reflexivity]. unfold _on_key_release, entry_content.
    cbn [before_cursor after_cursor]. by rewrite <- app_assoc.
  - by intros ->.
  - intros Ht. rewrite Ht. split; [reflexivity|].
    intros a Hin. subst typed. rewrite <- Hin in Ht.
    unfold on_send, empty_warning. rewrite Ht. cbn [negb andb].
    destruct (current_model a) as [[|c m]|];
      try (cbn [fst snd]; split; [intros E; vm_compute in E; discriminate E
                                 |by right]).
    destruct (is_token (strip (input_box a))
              && negb (is_set (attached_image_path a))).
    { destruct (handle_special_token (strip (input_box a)) a)
        as [a1 es] eqn:Eh.
      cbn [fst snd]. split; [|by left].
      revert Eh. unfold handle_special_token.
      repeat case_match; intros Eh E; by simplify_eq. }
    destruct (negb (model_running a));
      [cbn [fst snd]; split; [intros E; vm_compute in E; discriminate E
                             |by right]|].
    repeat case_match; cbn [fst snd];
      (split; [intros E; by simplify_eq|]); try (by right); by left.
Qed.

End ReturnKey.

Lemma return_key_witness :
  let e := {| before_cursor := py "hi "; after_cursor := py "there";
              height := 1; min_lines := 1; max_lines := 6 |} in
  let counting (en : ExpandingEntry * nat) := (entry_clear en.1, S en.2) in
  entry_content (_on_return counting (Some 5%Z) (e, 0)).1
  = py "hi " ++ NL ++ py "there"
  /\ (_on_return counting (Some 5%Z) (e, 0)).2 = 0
  /\ _on_return counting (Some 4%Z) (e, 0) = (entry_clear e, 1).
Proof.
  cbv zeta.
  destruct (return_key (H := Demo.host)
              (fun en : ExpandingEntry * nat => (entry_clear en.1, S en.2))
              (Some 5%Z)
              {| before_cursor := py "hi "; after_cursor := py "there";
                 height := 1; min_lines := 1; max_lines := 6 |} 0)
    as [[W1 W2] _]; [reflexivity|].
  destruct (return_key (H := Demo.host)
              (fun en : ExpandingEntry * nat => (entry_clear en.1, S en.2))
              (Some 4%Z)
              {| before_cursor := py "hi "; after_cursor := py "there";
                 height := 1; min_lines := 1; max_lines := 6 |} 0)
    as (_ & _ & W3).
  destruct W3 as [W3 _]; [reflexivity|reflexivity|].
  split; [exact W1|]. split; [exact W2|]. rewrite W3. reflexivity.
Defined.

(** ** Attachments *)

Section Attachments.
Context `{Host}.

(** What [attach_image] does. *)
Lemma attach_image_facts (chosen : option pystr) (a : ChatApp) :
  let a' := (attach_image chosen a).1 in
  let shown := (attach_image chosen a).2 in
  match chosen with
  | Some (c :: p) =>
      let path := c :: p in
      let entry := EImage path (Some (py "Image attached")) in
      attached_image_path a' = Some path
      /\ spawn shown = []
      /\ current_model a' = current_model a
      /\ model_running a' = model_running a
      /\ input_box a' = input_box a
      /\ histories a'
         = (if is_set (current_model a)
               && (negb PIL_AVAILABLE || image_opens path)
            then record_entry (histories a)
                   (default [] (current_model a)) entry
            else histories a)
      /\ (PIL_AVAILABLE = true -> image_opens path = false ->
          shown = [ShowError (py "Image Error") (exn_str OSError)]
          /\ history a' = history a)
  | _ => a' = a /\ shown = []
  end.
Proof.
  destruct chosen as [[|c p]|]; try by split.
  cbn zeta. unfold attach_image, append_image.
  destruct a as [cm ap idx rn hs hist inp lb lbl].
  cbn [set_attached_image_path set_history set_histories current_model
       attached_image_path histories history model_running input_box].
  destruct PIL_AVAILABLE eqn:Hpil; cbn [negb orb].
  - destruct (image_opens (c :: p)) eqn:Ho; cbn [fst snd].
    + destruct cm as [[|m0 m]|];
        cbn [is_set nonempty andb set_histories set_history histories
             attached_image_path current_model model_running input_box
             spawn from_option id];
        repeat split; intros; try reflexivity; discriminate.
    + rewrite andb_false_r.
      cbn [attached_image_path current_model model_running input_box
           histories history spawn].
      by repeat split.
  - rewrite andb_true_r. cbn [fst snd].
    destruct cm as [[|m0 m]|];
      cbn [is_set nonempty set_histories histories attached_image_path
           current_model model_running input_box spawn from_option id];
      repeat split; intros; try reflexivity; discriminate.
Qed.

(** Property X16.  [attach_image]: a cancelled dialog changes nothing
    and shows nothing.  A chosen file always becomes the pending
    attachment, even when its preview fails; it starts no stream and
    leaves the current model, the run flag and the input box alone.  One
    image turn, with the path and the caption ["Image attached"], is
    appended to the current model's history when a model is selected
    and either Pillow is missing or the file opens as an image; nothing
    is stored when no model is selected or when Pillow cannot open the
    file, an error dialog being shown in the latter case. *)
Theorem attach_image_effects (chosen : option pystr) (a : ChatApp) :
  let a' := (attach_image chosen a).1 in
  let shown := (attach_image chosen a).2 in
  match chosen with
  | Some (c :: p) =>
      let path := c :: p in
      let entry := EImage path (Some (py "Image attached")) in
      attached_image_path a' = Some path
      /\ spawn shown = []
      /\ current_model a' = current_model a
      /\ model_running a' = model_running a
      /\ input_box a' = input_box a
      /\ histories a'
         = (if is_set (current_model a)
               && (negb PIL_AVAILABLE || image_opens path)
            then record_entry (histories a)
                   (default [] (current_model a)) entry
            else histories a)
      /\ (PIL_AVAILABLE = true -> image_opens path = false ->
          shown = [ShowError (py "Image Error") (exn_str OSError)]
          /\ history a' = history a)
  | _ => a' = a /\ shown = []
  end.
Proof. apply attach_image_facts. Qed.

(** Property X17.  Stopped with an attachment pending, the application
    cannot be started again: a control token is intercepted only when no
    image is attached, a send is what drops the attachment, and sends
    are refused while stopped.  No send, press of a top-bar button,
    model selection, edit of the input box, new attachment, worker step
    or callback leaves this state. *)
Theorem stopped_with_attachment_is_kept (a : ChatApp) :
  stopped_with_attachment a ->
  (forall acts ws σ, gui σ = a ->
     stopped_with_attachment (gui (run acts (ws, σ)).2))
  /\ (forall token, stopped_with_attachment (_send_special token a).1)
  /\ (forall chosen, stopped_with_attachment (attach_image chosen a).1).
Proof.
  assert (Hsend : forall x, stopped_with_attachment x -> on_send x = (x,
            match current_model x with
            | Some (_ :: _) =>
                [ShowWarning (py "Model stopped")
                   (py "Model is stopped. Press " ++ START_TOKEN
                    ++ py " to start it.")]
            | _ => [ShowWarning (py "No model")
                      (py "Select a model from the left before sending.")]
            end)).
  { intros x [Hr Hat]. unfold on_send. rewrite Hr, Hat.
    cbn [negb]. rewrite !andb_false_r.
    by destruct (current_model x) as [[|c m]|]. }
  assert (Hstep : forall act s,
            stopped_with_attachment (gui s.2) ->
            stopped_with_attachment (gui (step act s).2)).
  { intros act [ws σ] Hst. cbn [snd] in *.
    destruct act as [i| |row|text|]; cbn [step].
    - destruct (ws !! i) as [w|]; [|exact Hst].
      destruct w as [model stream|model acc [[|chunk rest] [exc|]]|];
        cbn [_stream_response_step snd after with_gui gui]; try exact Hst.
      unfold commit_final. repeat case_match; exact Hst.
    - destruct (queue σ) as [|[|acc_text|exc] q]; cbn [snd]; try exact Hst.
      cbn [run_callback with_gui gui]. unfold append_assistant.
      cbn [negb andb]. repeat case_match; exact Hst.
    - cbn [snd with_gui gui].
      destruct (on_model_select_core (Some row) (gui σ)) as (C1 & C2 & _).
      destruct Hst as [Hr Hat]. split; congruence.
    - exact Hst.
    - rewrite (Hsend _ Hst). exact Hst. }
  assert (Hrun : forall acts s,
            stopped_with_attachment (gui s.2) ->
            stopped_with_attachment (gui (run acts s).2)).
  { induction acts as [|act acts IH]; intros s Hs; [exact Hs|].
    cbn [run foldl]. apply IH. by apply Hstep. }
  intros Hst. split; [|split].
  - intros acts ws σ <-. by apply Hrun.
  - intros token.
    unfold _send_special. rewrite Hsend; [exact Hst|exact Hst].
  - intros [[|c p]|]; try exact Hst.
    destruct Hst as [Hr Hat].
    pose proof (attach_image_facts (Some (c :: p)) a)
      as (A1 & _ & _ & A4 & _).
    split; [congruence|]. by rewrite A1.
Qed.

End Attachments.

Lemma stopped_with_attachment_is_kept_witness :
  let stopped := (on_send (H := Demo.host)
                    (set_input_box Demo.listed STOP_TOKEN)).1 in
  let a := (attach_image (H := Demo.host) (Some (py "cat.png")) stopped).1 in
  model_running (_send_special (H := Demo.host) START_TOKEN a).1 = false
  /\ model_running
       (gui (run (H := Demo.host)
               [Type_ START_TOKEN; Send; Select 1; Type_ (py "x"); Send]
               ([], {| gui := a; queue := []; shown := [] |})).2) = false.
Proof.
  cbv zeta.
  destruct (stopped_with_attachment_is_kept (H := Demo.host)
              (attach_image (H := Demo.host) (Some (py "cat.png"))
                 (on_send (H := Demo.host)
                    (set_input_box Demo.listed STOP_TOKEN)).1).1)
    as (W1 & W2 & _).
  - split; vm_compute; reflexivity.
  - split.
    + apply (W2 START_TOKEN).
    + eapply W1. reflexivity.
Defined.

(** ** The base URL *)

Lemma lstrip_slash_snoc (s : pystr) (c : N) :
  N.eqb c 47 = false -> lstrip_slash (s ++ [c]) = lstrip_slash s ++ [c].
Proof.
  intros Hc. induction s as [|d s IH]; cbn [app lstrip_slash].
  - by rewrite Hc.
  - by destruct (N.eqb d 47).
Qed.

(** Property X18.  The client's [base_url] never ends in a slash, so the
    paths appended to it, which begin with one, give URLs with a single
    slash at the joint; slashes at the end of the configured URL make no
    difference, and a URL without one is kept as it is. *)
Theorem base_url_has_no_trailing_slash (base_url : pystr) :
  (forall s, client_base_url base_url <> s ++ py "/")
  /\ (exists slashes,
        base_url = client_base_url base_url ++ slashes
        /\ Forall (fun c => c = 47%N) slashes)
  /\ client_base_url (base_url ++ py "/") = client_base_url base_url
  /\ ((forall s, base_url <> s ++ py "/") ->
      client_base_url base_url = base_url).
Proof.
  unfold client_base_url, rstrip_slash.
  assert (Hhead : forall s c r, lstrip_slash s = c :: r -> N.eqb c 47 = false).
  { induction s as [|d s IH]; [discriminate|]. cbn [lstrip_slash].
    destruct (N.eqb d 47) eqn:Hd; [exact IH|]. intros c r E. by simplify_eq. }
  assert (Hsplit : forall s, exists slashes,
            s = slashes ++ lstrip_slash s
            /\ Forall (fun c => c = 47%N) slashes).
  { induction s as [|d s (sl & E & Hsl)]; [by exists []|].
    cbn [lstrip_slash]. destruct (N.eqb d 47) eqn:Hd.
    - apply N.eqb_eq in Hd. subst d. exists (47%N :: sl).
      split; [cbn [app]; congruence|by constructor].
    - by exists []. }
  repeat split.
  - intros s E. apply (f_equal (@rev N)) in E.
    rewrite rev_involutive, rev_app_distr in E.
    change (rev (py "/")) with [47%N] in E. cbn [app] in E.
    by apply Hhead in E.
  - destruct (Hsplit (rev base_url)) as (sl & E & Hsl).
    exists (rev sl). split.
    + rewrite <- rev_app_distr, <- E. by rewrite rev_involutive.
    + by apply Forall_rev.
  - rewrite rev_app_distr. reflexivity.
  - intros Hno. destruct (Hsplit (rev base_url)) as ([|c sl] & E & Hsl).
    + cbn [app] in E. by rewrite <- E, rev_involutive.
    + exfalso. apply Forall_cons in Hsl as [-> _].
      apply (Hno (rev (sl ++ lstrip_slash (rev base_url)))).
      apply (f_equal (@rev N)) in E. rewrite rev_involutive in E.
      etrans; [exact E|]. cbn [app rev]. reflexivity.
Qed.

Lemma base_url_has_no_trailing_slash_witness :
  client_base_url (py "http://localhost:11434//")
  = py "http://localhost:11434"
  /\ client_base_url (py "http://localhost:11434")
     = py "http://localhost:11434".
Proof.
  split; [vm_compute; reflexivity|].
  apply base_url_has_no_trailing_slash.
  intros s E. apply (f_equal (@rev N)) in E.
  rewrite rev_app_distr in E. vm_compute in E. discriminate E.
Defined.
